(** * codecarbon.core.cpu: CPU power backends and TDP resolution

    A shallow embedding of [codecarbon/core/cpu.py]:
    - [Py]: the fragment of the Python runtime the module relies on
      (exceptions, truthiness, [max], [list.index], insertion-ordered
      dictionaries, [str.strip], substring tests, [os.path.join], logging);
    - [IntelPowerGadget]: the class of that name (log aggregation);
    - [IntelRAPL]: the class of that name (domain discovery and sampling);
    - [TDP]: class [TDP] (two-stage fuzzy resolution of the CPU model).

    External libraries ([fuzzywuzzy], [pandas.read_csv], [cpuinfo], the file
    system, the subprocess call) are not part of the module: their results
    enter the model as arguments of the functions that call them. *)

From Stdlib Require Import ZArith QArith List String Ascii Bool Arith Lia.
From Stdlib Require Import DecimalString DecimalNat Sorted.
Import ListNotations.

(* ================================================================== *)
(** * The Python runtime fragment *)
(* ================================================================== *)

Module Py.

(** Exceptions, by class; the payload is [str(e)]. *)
Inductive exception : Type :=
| SystemError (msg : string)
| FileNotFoundError (msg : string)
| ValueError (msg : string)
| IndexError (msg : string)
| KeyError (msg : string)
| Exception (msg : string).

Definition str_exc (e : exception) : string :=
  match e with
  | SystemError m | FileNotFoundError m | ValueError m
  | IndexError m | KeyError m | Exception m => m
  end.

(** A computation either returns a value or raises. *)
Inductive result (A : Type) : Type :=
| Ok (a : A)
| Raise (e : exception).
Arguments Ok {A} a.
Arguments Raise {A} e.

Definition bind {A B} (c : result A) (k : A -> result B) : result B :=
  match c with
  | Ok a => k a
  | Raise e => Raise e
  end.

Declare Scope py_scope.
Delimit Scope py_scope with py.
Notation "x <- c ;; k" := (bind c (fun x => k))
  (at level 61, c at next level, right associativity) : py_scope.

(** [[f(x) for x in xs]] for a fallible [f]: the first exception aborts. *)
Fixpoint map_result {A B} (f : A -> result B) (xs : list A) : result (list B) :=
  match xs with
  | [] => Ok []
  | x :: xs' =>
      bind (f x) (fun y => bind (map_result f xs') (fun ys => Ok (y :: ys)))
  end.

(** ** Builtins on lists *)

(** [max(l)] on a list of integers. *)
Definition max (l : list Z) : result Z :=
  match l with
  | [] => Raise (ValueError "max() arg is an empty sequence")
  | x :: l' => Ok (fold_left Z.max l' x)
  end.

(** [l.index(x)]: position of the first element equal to [x]. *)
Fixpoint index_from (l : list Z) (x : Z) (i : nat) : result nat :=
  match l with
  | [] => Raise (ValueError "x is not in list")
  | y :: l' => if Z.eqb y x then Ok i else index_from l' x (S i)
  end.

Definition index (l : list Z) (x : Z) : result nat := index_from l x 0.

(** [l[i]] for a non-negative [i]. *)
Definition getitem {A} (l : list A) (i : nat) : result A :=
  match nth_error l i with
  | Some a => Ok a
  | None => Raise (IndexError "list index out of range")
  end.

(** [enumerate(l)]. *)
Fixpoint enumerate_from {A} (i : nat) (l : list A) : list (nat * A) :=
  match l with
  | [] => []
  | a :: l' => (i, a) :: enumerate_from (S i) l'
  end.

Definition enumerate {A} (l : list A) : list (nat * A) := enumerate_from 0 l.

(** ** Strings *)

(** [sub in s]. *)
Fixpoint contains (sub s : string) : bool :=
  String.prefix sub s
  || match s with
     | EmptyString => false
     | String _ s' => contains sub s'
     end.

(** [s.startswith(p)]. *)
Definition startswith (s p : string) : bool := String.prefix p s.

(** [s.endswith(p)] for a one-character [p]. *)
Fixpoint endswith_char (s : string) (c : ascii) : bool :=
  match s with
  | EmptyString => false
  | String a EmptyString => Ascii.eqb a c
  | String _ s' => endswith_char s' c
  end.

(** Whitespace as [str.strip()] sees it on the ASCII range:
    TAB, LF, VT, FF, CR, FS, GS, RS, US and space. *)
Definition isspace (c : ascii) : bool :=
  let n := nat_of_ascii c in
  ((9 <=? n) && (n <=? 13)) || ((28 <=? n) && (n <=? 32)).

Fixpoint lstrip (s : string) : string :=
  match s with
  | EmptyString => EmptyString
  | String c s' => if isspace c then lstrip s' else s
  end.

Definition reverse (s : string) : string :=
  string_of_list_ascii (rev (list_ascii_of_string s)).

Definition rstrip (s : string) : string := reverse (lstrip (reverse s)).

Definition strip (s : string) : string := rstrip (lstrip s).

(** [str(i)] for a non-negative integer. *)
Definition str_nat (i : nat) : string := NilZero.string_of_uint (Nat.to_uint i).

(** [str(z)] for an integer. *)
Definition str_int (z : Z) : string := NilZero.string_of_int (Z.to_int z).

(** [os.path.join] (posixpath) on two and on three components. *)
Definition path_join2 (a b : string) : string :=
  if startswith b "/" then b
  else if (String.eqb a "" || endswith_char a "/")%bool then (a ++ b)%string
  else (a ++ "/" ++ b)%string.

Definition path_join3 (a b c : string) : string :=
  path_join2 (path_join2 a b) c.

(** ** Truthiness *)

Definition truthy_str (s : string) : bool := negb (String.eqb s "").

Definition truthy_opt_str (s : option string) : bool :=
  match s with
  | Some s => truthy_str s
  | None => false
  end.

Definition truthy_int (z : Z) : bool := negb (Z.eqb z 0).

Definition truthy_opt_int (z : option Z) : bool :=
  match z with
  | Some z => truthy_int z
  | None => false
  end.

Definition truthy_list {A} (l : list A) : bool :=
  match l with
  | [] => false
  | _ :: _ => true
  end.

(** ** Dictionaries

    A [dict] keeps its keys in insertion order; assigning to a key that is
    already present replaces the value in place. *)

Definition dict (V : Type) : Type := list (string * V).

Fixpoint dict_set {V} (d : dict V) (k : string) (v : V) : dict V :=
  match d with
  | [] => [(k, v)]
  | (k', v') :: d' =>
      if String.eqb k' k then (k', v) :: d' else (k', v') :: dict_set d' k v
  end.

Fixpoint dict_get {V} (d : dict V) (k : string) : option V :=
  match d with
  | [] => None
  | (k', v') :: d' => if String.eqb k' k then Some v' else dict_get d' k
  end.

Definition keys {V} (d : dict V) : list string := List.map fst d.

(** [d.get(k, default)]. *)
Definition dict_get_default {V} (d : dict V) (k : string) (default : V) : V :=
  match dict_get d k with
  | Some v => v
  | None => default
  end.

(** ** Logging

    The module-level [logger] is the only state the module writes: a
    sequence of records, each a level and a formatted message. *)

Inductive level : Type := DEBUG | INFO | WARNING.

Record log_record : Type := LogRecord { levelno : level; message : string }.

Definition logger : Type := list log_record.

(** A method that may update its state [S] and may raise: the exception,
    when there is one, leaves with the updates made before it. *)
Definition M (S A : Type) : Type := S -> result A * S.

Definition ret {S A} (a : A) : M S A := fun s => (Ok a, s).

Definition raise {S A} (e : exception) : M S A := fun s => (Raise e, s).

Definition lift {S A} (c : result A) : M S A := fun s => (c, s).

Definition bindM {S A B} (c : M S A) (k : A -> M S B) : M S B :=
  fun s =>
    match c s with
    | (Ok a, s') => k a s'
    | (Raise e, s') => (Raise e, s')
    end.

(** [try: c except Exception as e: h(e)]. *)
Definition try_except {S A} (c : M S A) (h : exception -> M S A) : M S A :=
  fun s =>
    match c s with
    | (Ok a, s') => (Ok a, s')
    | (Raise e, s') => h e s'
    end.

Notation "x <~ c ;; k" := (bindM c (fun x => k))
  (at level 61, c at next level, right associativity) : py_scope.
Notation "c ;;; k" := (bindM c (fun _ => k))
  (at level 61, right associativity) : py_scope.

(** [for x in xs: body(x)]; an exception leaves the loop. *)
Fixpoint for_each {S A} (xs : list A) (body : A -> M S unit) : M S unit :=
  match xs with
  | [] => ret tt
  | x :: xs' => bindM (body x) (fun _ => for_each xs' body)
  end.

Definition log (l : level) (msg : string) : M logger unit :=
  fun lg => (Ok tt, lg ++ [LogRecord l msg]).

(** A method body with one local dictionary [cpu_details] next to the
    logger. *)
Definition frame (V : Type) : Type := (dict V * logger)%type.

Definition logf {V} (l : level) (msg : string) : M (frame V) unit :=
  fun fr => (Ok tt, (fst fr, snd fr ++ [LogRecord l msg])).

(** [cpu_details[k] = v]. *)
Definition setitem {V} (k : string) (v : V) : M (frame V) unit :=
  fun fr => (Ok tt, (dict_set (fst fr) k v, snd fr)).

(** [cpu_details = dict(); body; return cpu_details]. *)
Definition returning_dict {V} (body : M (frame V) unit) : M logger (dict V) :=
  fun lg =>
    match body ([], lg) with
    | (Ok _, (cpu_details, lg')) => (Ok cpu_details, lg')
    | (Raise e, (_, lg')) => (Raise e, lg')
    end.

(** The newline character. *)
Definition nl : string := String (ascii_of_nat 10) EmptyString.

End Py.

(* ================================================================== *)
(** * class TDP *)
(* ================================================================== *)

Module TDP.
Import Py.
Local Open Scope py_scope.
Local Open Scope Z_scope.

(** A row of the reference table returned by
    [DataSource().get_cpu_power_data()]; the table is a [DataFrame] read
    from a CSV file, so its index is [0 .. n-1] and a label is a position. *)
Record row : Type := Row { Name : string; TDP : Z }.

Definition DataFrame : Type := list row.

(** [cpu_df["Name"]]. *)
Definition names (cpu_df : DataFrame) : list string := map Name cpu_df.

(** [cpuinfo.get_cpu_info()] is a dictionary of strings. *)
Definition cpu_info_t : Type := dict string.

Definition THRESHOLD_DIRECT : Z := 100.
Definition THRESHOLD_TOKEN_SET : Z := 100.

Section Resolver.

(** [str.lower], [fuzz.ratio] and [fuzz.token_set_ratio]. *)
Variable lower : string -> string.
Variable ratio : string -> string -> Z.
Variable token_set_ratio : string -> string -> Z.

Definition _detect_cpu_model (cpu_info : cpu_info_t) : option string :=
  if truthy_list cpu_info then
    let cpu_model_detected := dict_get_default cpu_info "brand_raw" ""%string in
    Some cpu_model_detected
  else None.

(** [cpu_df[cpu_df["Name"] == match]["TDP"].values[0]] *)
Definition _get_cpu_constant_power (match_ : string) (cpu_power_df : DataFrame)
  : result Z :=
  match map TDP (filter (fun r => String.eqb (Name r) match_) cpu_power_df) with
  | v :: _ => Ok v
  | [] => Raise (IndexError "index 0 is out of bounds for axis 0 with size 0")
  end.

(** [cpu_df["Name"][idx]], by label. *)
Definition name_at_label (cpu_df : DataFrame) (idx : nat) : result string :=
  match nth_error (names cpu_df) idx with
  | Some n => Ok n
  | None => Raise (KeyError (str_nat idx))
  end.

(** [cpu_df["Name"].iloc[idx]], by position. *)
Definition name_iloc (cpu_df : DataFrame) (idx : nat) : result string :=
  match nth_error (names cpu_df) idx with
  | Some n => Ok n
  | None => Raise (IndexError "single positional indexer is out-of-bounds")
  end.

Definition _get_cpus (cpu_df : DataFrame) (cpu_idxs : list nat)
  : result (list string) :=
  map_result (name_at_label cpu_df) cpu_idxs.

Definition _get_direct_matches (moodel : string) (cpu_df : DataFrame) : list Z :=
  let model_l := lower moodel in
  map (fun cpu => ratio model_l (lower cpu)) (names cpu_df).

Definition _get_token_set_matches (model : string) (cpu_df : DataFrame) : list Z :=
  map (fun cpu => token_set_ratio model cpu) (names cpu_df).

Definition _get_single_direct_match
  (ratios : list Z) (max_ratio : Z) (cpu_df : DataFrame) : result string :=
  idx <- index ratios max_ratio ;;
  cpu_matched <- name_iloc cpu_df idx ;;
  Ok cpu_matched.

Definition _get_max_idxs (ratios : list Z) (max_ratio : Z) : list nat :=
  map fst (filter (fun p => Z.eqb (snd p) max_ratio) (enumerate ratios)).

(** The result is the matched name, or [None]. *)
Definition _get_matching_cpu
  (model_raw : string) (cpu_df : DataFrame) (greedy : bool)
  : result (option string) :=
  let ratios_direct := _get_direct_matches model_raw cpu_df in
  let ratios_token_set := _get_token_set_matches model_raw cpu_df in
  max_ratio_direct <- max ratios_direct ;;
  max_ratio_token_set <- max ratios_token_set ;;
  if THRESHOLD_DIRECT <=? max_ratio_direct then
    cpu_matched <- _get_single_direct_match ratios_direct max_ratio_direct cpu_df ;;
    Ok (Some cpu_matched)
  else if max_ratio_token_set <? THRESHOLD_TOKEN_SET then
    Ok None
  else
    let cpu_idxs := _get_max_idxs ratios_token_set max_ratio_token_set in
    cpu_machings <- _get_cpus cpu_df cpu_idxs ;;
    if (truthy_list cpu_machings && (List.length cpu_machings =? 1)%nat) || greedy then
      cpu_matched <- getitem cpu_machings 0 ;;
      Ok (Some cpu_matched)
    else
      Ok None.

(** [cpu_power_df] stands for [DataSource().get_cpu_power_data()]; [greedy]
    is left to its default. *)
Definition _get_cpu_power_from_registry
  (cpu_power_df : DataFrame) (cpu_model_raw : string) : result (option Z) :=
  cpu_matching <- _get_matching_cpu cpu_model_raw cpu_power_df false ;;
  match cpu_matching with
  | Some m =>
      if truthy_str m then
        power <- _get_cpu_constant_power m cpu_power_df ;;
        Ok (Some power)
      else Ok None
  | None => Ok None
  end.

(** [f"{power}"] for the value [_get_cpu_power_from_registry] returned. *)
Definition format_power (power : option Z) : string :=
  match power with
  | Some p => str_int p
  | None => "None"%string
  end.

Definition msg_detected (cpu_model_detected : string) (power : option Z) : string :=
  ("CPU : We detect a " ++ cpu_model_detected ++ " with a TDP of "
     ++ format_power power ++ " W")%string.

Definition msg_unknown (cpu_model_detected : string) : string :=
  ("We saw that you have a " ++ cpu_model_detected ++ " but we don't know it."
     ++ " Please contact us.")%string.

Definition msg_undetected : string :=
  ("We were unable to detect your CPU using the `cpuinfo` package."
     ++ " Resorting to a default power consumption of 85W.")%string.

(** [cpu_info] stands for [cpuinfo.get_cpu_info()]; the result is the pair
    that [__init__] stores in [self.model, self.tdp]. *)
Definition _main (cpu_info : cpu_info_t) (cpu_power_df : DataFrame)
  : M logger (string * option Z) :=
  match _detect_cpu_model cpu_info with
  | Some cpu_model_detected =>
      if truthy_str cpu_model_detected then
        power <~ lift (_get_cpu_power_from_registry cpu_power_df cpu_model_detected) ;;
        if truthy_opt_int power then
          log DEBUG (msg_detected cpu_model_detected power) ;;;
          ret (cpu_model_detected, power)
        else
          log WARNING (msg_unknown cpu_model_detected) ;;;
          ret (cpu_model_detected, None)
      else
        log WARNING msg_undetected ;;;
        ret ("Unknown"%string, None)
  | None =>
      log WARNING msg_undetected ;;;
      ret ("Unknown"%string, None)
  end.

End Resolver.

(** ** Notions used to state the behaviour of the resolver *)

(** The entry at position [i] scores [m] on the token-set ratio. *)
Definition attains (token_set_ratio : string -> string -> Z)
  (model : string) (cpu_df : DataFrame) (m : Z) (i : nat) : Prop :=
  exists n, nth_error (names cpu_df) i = Some n /\ token_set_ratio model n = m.

(** [_get_max_idxs] with the enumeration started at [k]. *)
Definition max_idxs_from (m : Z) (k : nat) (ratios : list Z) : list nat :=
  map fst (filter (fun p => Z.eqb (snd p) m) (enumerate_from k ratios)).

End TDP.

(* ================================================================== *)
(** * class IntelPowerGadget *)
(* ================================================================== *)

Module IntelPowerGadget.
Import Py.
Local Open Scope py_scope.

(** A cell of the parsed log. Power Gadget columns are numeric; a number is
    kept as an exact rational (rounding of [float64] is not modelled) and a
    missing value is [NaN]. *)
Inductive cell : Type :=
| Num (q : Q)
| NaN.

Definition isna (c : cell) : bool :=
  match c with
  | NaN => true
  | Num _ => false
  end.

(** What [pd.read_csv] returns: the header and the rows below it; a field
    the row does not have reads as [NaN]. *)
Record DataFrame : Type := { columns : list string; rows : list (list cell) }.

Definition at_ (r : list cell) (j : nat) : cell := nth j r NaN.

(** [df.dropna()]: keep the rows with no missing value in any column. *)
Definition dropna (df : DataFrame) : DataFrame :=
  {| columns := columns df;
     rows := filter
               (fun r => negb (existsb (fun j => isna (at_ r j))
                                       (seq 0 (List.length (columns df)))))
               (rows df) |}.

Fixpoint position (col_name : string) (cols : list string) : option nat :=
  match cols with
  | [] => None
  | c :: cols' =>
      if String.eqb c col_name then Some 0%nat
      else option_map S (position col_name cols')
  end.

(** [df[col_name]]. *)
Definition column (df : DataFrame) (col_name : string) : result (list cell) :=
  match position col_name (columns df) with
  | Some j => Ok (map (fun r => at_ r j) (rows df))
  | None => Raise (KeyError col_name)
  end.

(** [series.iloc[-1]]. *)
Definition iloc_last (series : list cell) : result cell :=
  match rev series with
  | c :: _ => Ok c
  | [] => Raise (IndexError "single positional indexer is out-of-bounds")
  end.

Definition numbers (series : list cell) : list Q :=
  flat_map (fun c => match c with Num q => [q] | NaN => [] end) series.

Definition sum (qs : list Q) : Q := fold_left Qplus qs 0%Q.

(** [series.mean()]: missing values are skipped, and the mean of nothing is
    [NaN]. *)
Definition mean (series : list cell) : cell :=
  match numbers series with
  | [] => NaN
  | qs => Num (sum qs / inject_Z (Z.of_nat (List.length qs)))
  end.

Record t : Type := {
  _log_file_path : string;
  _system : string;
  _duration : Z;
  _resolution : Z;
  _cli : string
}.

Definition msg_returncode (returncode : Z) : string :=
  ("Returncode while logging power values using "
     ++ "Intel Power Gadget: " ++ str_int returncode)%string.

(** [call] is what [subprocess.call] answers on this platform. *)
Definition _log_values {V} (self : t) (call : Z) : M (frame V) unit :=
  if startswith (_system self) "win" then
    let returncode := call in
    if negb (Z.eqb returncode 0) then logf WARNING (msg_returncode returncode)
    else ret tt
  else if startswith (_system self) "darwin" then
    let returncode := call in
    if negb (Z.eqb returncode 0) then logf WARNING (msg_returncode returncode)
    else ret tt
  else ret tt.

Definition excluded : list string := ["System Time"; "Elapsed Time (sec)"; "RDTSC"]%string.

Definition msg_unreadable (self : t) (e : exception) : string :=
  ("Unable to read Intel Power Gadget logged file at " ++ _log_file_path self
     ++ nl ++ "                 Exception occurred " ++ str_exc e)%string.

(** The body of the loop over the columns of [cpu_data]. *)
Definition aggregate_column (cpu_data : DataFrame) (col_name : string)
  : M (frame cell) unit :=
  if existsb (String.eqb col_name) excluded then ret tt
  else if contains "Cumulative" col_name then
    series <~ lift (column cpu_data col_name) ;;
    v <~ lift (iloc_last series) ;;
    setitem col_name v
  else
    series <~ lift (column cpu_data col_name) ;;
    setitem col_name (mean series).

(** [returncode] is the exit status of the tool and [read_csv] the outcome
    of [pd.read_csv(self._log_file_path)]. *)
Definition get_cpu_details (self : t) (returncode : Z) (read_csv : result DataFrame)
  : M logger (dict cell) :=
  returning_dict
    (_log_values self returncode ;;;
     try_except
       (df <~ lift read_csv ;;
        let cpu_data := dropna df in
        for_each (columns cpu_data) (aggregate_column cpu_data))
       (fun e => logf INFO (msg_unreadable self e))).

(** ** Construction *)

Definition _osx_exec : string := "PowerLog".
Definition _osx_exec_backup : string := "/Applications/Intel Power Gadget/PowerLog".
Definition _windows_exec : string := "PowerLog3.0.exe".
Definition _windows_exec_backup : string :=
  "C:\Program Files\Intel\Power Gadget 3.5\PowerLog3.0.exe".

Definition msg_no_executable (system : string) : string :=
  ("Intel Power Gadget executable not found on " ++ system)%string.

(** [which] stands for [shutil.which]: the path it resolves, or [None]. The
    result is the value assigned to [self._cli]. *)
Definition _setup_cli (which : string -> option string) (system : string)
  : result string :=
  if startswith system "win" then
    if truthy_opt_str (which _windows_exec) then
      Ok (match which _windows_exec with Some p => p | None => ""%string end)
    else if truthy_opt_str (which _windows_exec_backup) then
      Ok _windows_exec_backup
    else
      Raise (FileNotFoundError (msg_no_executable system))
  else if startswith system "darwin" then
    if truthy_opt_str (which _osx_exec) then
      Ok _osx_exec
    else if truthy_opt_str (which _osx_exec_backup) then
      Ok _osx_exec_backup
    else
      Raise (FileNotFoundError (msg_no_executable system))
  else
    Raise (SystemError "Platform not supported by Intel Power Gadget").

(** [platform] stands for [sys.platform.lower()] and [join] for
    [os.path.join], whose separator depends on the host. *)
Definition __init__ (which : string -> option string)
  (join : string -> string -> string) (platform : string)
  (output_dir : string) (duration resolution : Z) (log_file_name : string)
  : result t :=
  cli <- _setup_cli which platform ;;
  Ok {| _log_file_path := join output_dir log_file_name;
        _system := platform;
        _duration := duration;
        _resolution := resolution;
        _cli := cli |}.

(** ** Notions used to state the behaviour of the backend *)

(** The number in a cell that holds one. *)
Definition number_of (c : cell) : Q :=
  match c with
  | Num q => q
  | NaN => 0%Q
  end.

Definition is_excluded (col : string) : bool := existsb (String.eqb col) excluded.

(** The last value of a cumulative column, the mean of any other. *)
Definition aggregate (col : string) (qs : list Q) : Q :=
  if contains "Cumulative" col then last qs 0%Q
  else (sum qs / inject_Z (Z.of_nat (List.length qs)))%Q.

(** The numbers of column [j] in the rows that [dropna] keeps. *)
Definition kept_numbers (df : DataFrame) (j : nat) : list Q :=
  map (fun r => number_of (at_ r j)) (rows (dropna df)).

Definition expected (df : DataFrame) (col : string) : cell :=
  match position col (columns df) with
  | Some j => Num (aggregate col (kept_numbers df j))
  | None => NaN
  end.

Definition fill_step (df : DataFrame) (d : dict cell) (col : string) : dict cell :=
  if is_excluded col then d else dict_set d col (expected df col).

End IntelPowerGadget.

(* ================================================================== *)
(** * class IntelRAPL *)
(* ================================================================== *)

Module IntelRAPL.
Import Py.
Local Open Scope py_scope.

(** The file-system calls the class makes: [os.path.exists], [os.listdir]
    and [open(path).read()]. *)
Record filesystem : Type := {
  path_exists : string -> bool;
  listdir : string -> result (list string);
  read : string -> result string
}.

Section Sampling.

(** Modelled from the spec: class [RAPLFile] of [codecarbon/core/rapl.py] is
    not among the sources. The spec gives it a name, a source path, the
    recorded start and end values and a derived power, with [start()]
    recording the counter and [end(delay)] recording it again and deriving
    the power, either of which may fail to read. Its measurement fields are
    kept abstract as [reading], fresh ones being [reading0]. *)
Variable reading : Type.
Variable reading0 : reading.
Variable power : Type.
Variable start : string -> reading -> result reading.
Variable end_ : Q -> string -> reading -> result reading.
Variable power_measurement : reading -> power.

Record RAPLFile : Type := {
  name : string;
  path : string;
  measured : reading
}.

Definition RAPLFile_start (f : RAPLFile) : result RAPLFile :=
  r <- start (path f) (measured f) ;;
  Ok {| name := name f; path := path f; measured := r |}.

Definition RAPLFile_end (delay : Q) (f : RAPLFile) : result RAPLFile :=
  r <- end_ delay (path f) (measured f) ;;
  Ok {| name := name f; path := path f; measured := r |}.

Record t : Type := {
  _lin_rapl_dir : string;
  _system : string;
  _delay : Q;
  _rapl_files : list RAPLFile
}.

Definition _is_platform_supported (self : t) : bool :=
  startswith (_system self) "lin".

Definition package_label (i : nat) : string :=
  ("Processor Power_" ++ str_nat i ++ "(Watt)")%string.

(** The loop of [_fetch_rapl_files], from the counter [i] and the files
    appended so far. *)
Fixpoint fetch_loop (fs : filesystem) (dir : string) (files : list string)
  (i : nat) (rapl_files : list RAPLFile) : result (list RAPLFile) :=
  match files with
  | [] => Ok rapl_files
  | file :: files' =>
      let path := path_join3 dir file "name" in
      content <- read fs path ;;
      let name := strip content in
      if contains "package" name then
        let name := package_label i in
        fetch_loop fs dir files' (S i)
          (rapl_files ++ [{| name := name;
                             path := path_join3 dir file "energy_uj";
                             measured := reading0 |}])
      else
        fetch_loop fs dir files' i
          (rapl_files ++ [{| name := name;
                             path := path_join3 dir file "energy_uj";
                             measured := reading0 |}])
  end.

Definition with_rapl_files (self : t) (fl : list RAPLFile) : t :=
  {| _lin_rapl_dir := _lin_rapl_dir self;
     _system := _system self;
     _delay := _delay self;
     _rapl_files := fl |}.

Definition _fetch_rapl_files (fs : filesystem) (self : t) : result t :=
  entries <- listdir fs (_lin_rapl_dir self) ;;
  let files := filter (fun x => contains ":" x) entries in
  fl <- fetch_loop fs (_lin_rapl_dir self) files 0 (_rapl_files self) ;;
  Ok (with_rapl_files self fl).

Definition msg_not_found (self : t) : string :=
  ("Intel RAPL files not found at " ++ _lin_rapl_dir self ++ " on "
     ++ _system self)%string.

Definition _setup_rapl (fs : filesystem) (self : t) : result t :=
  if _is_platform_supported self then
    if path_exists fs (_lin_rapl_dir self) then
      _fetch_rapl_files fs self
    else
      Raise (FileNotFoundError (msg_not_found self))
  else
    Raise (SystemError "Platform not supported by Intel RAPL Interface").

(** [platform] stands for [sys.platform.lower()]. *)
Definition __init__ (fs : filesystem) (platform : string) (rapl_dir : string)
  : result t :=
  _setup_rapl fs {| _lin_rapl_dir := rapl_dir;
                    _system := platform;
                    _delay := 1 # 100;
                    _rapl_files := [] |}.

(** [f"{self._rapl_files}"] is the [repr] of a list of objects; only its
    place in the message is kept. *)
Definition msg_unreadable (e : exception) : string :=
  ("Unable to read Intel RAPL files at " ++ "[...]"
     ++ nl ++ "                 Exception occurred " ++ str_exc e)%string.

Definition get_cpu_details (self : t) : M logger (dict power) :=
  returning_dict
    (try_except
       (started <~ lift (map_result RAPLFile_start (_rapl_files self)) ;;
        ended <~ lift (map_result (RAPLFile_end (_delay self)) started) ;;
        for_each ended (fun rapl_file =>
          setitem (name rapl_file) (power_measurement (measured rapl_file))))
       (fun e => logf INFO (msg_unreadable e))).

End Sampling.

Arguments name {reading} _.
Arguments path {reading} _.
Arguments measured {reading} _.
Arguments _lin_rapl_dir {reading} _.
Arguments _system {reading} _.
Arguments _delay {reading} _.
Arguments _rapl_files {reading} _.
Arguments _is_platform_supported {reading} _.
Arguments msg_not_found {reading} _.
Arguments with_rapl_files {reading} _ _.
Arguments RAPLFile_start {reading} _ _.
Arguments RAPLFile_end {reading} _ _ _.
Arguments fetch_loop {reading} _ _ _ _ _ _.
Arguments _fetch_rapl_files {reading} _ _ _.
Arguments _setup_rapl {reading} _ _ _.
Arguments __init__ {reading} _ _ _ _.
Arguments get_cpu_details {reading power} _ _ _ _.

(** ** Notions used to state the behaviour of the backend *)

(** The declared name of a domain directory: the stripped content of its
    [name] file. *)
Definition declared (fs : filesystem) (dir file : string) (n : string) : Prop :=
  exists content, read fs (path_join3 dir file "name") = Ok content /\ n = strip content.

Definition is_package (n : string) : bool := contains "package" n.

(** The label of the domain declared as [n] when [i] packages came before. *)
Definition label (i : nat) (n : string) : string :=
  if is_package n then package_label i else n.

(** How many of the first [k] declared names are packages. *)
Definition packages_before (names : list string) (k : nat) : nat :=
  List.length (filter is_package (firstn k names)).

Fixpoint relabel (i : nat) (names : list string) : list string :=
  match names with
  | [] => []
  | n :: names' =>
      label i n :: relabel (if is_package n then S i else i) names'
  end.

End IntelRAPL.

(* ================================================================== *)
(** * Module-level probes *)
(* ================================================================== *)

Module Availability.
Import Py.
Local Open Scope py_scope.

Definition msg_powergadget (e : exception) : string :=
  ("Exception occurred while instantiating IntelPowerGadget : " ++ str_exc e)%string.

Definition msg_rapl (e : exception) : string :=
  ("Exception occurred while instantiating RAPLInterface : " ++ str_exc e)%string.

(** The constructor is called with its default arguments. *)
Definition is_powergadget_available
  (which : string -> option string) (join : string -> string -> string)
  (platform : string) : M logger bool :=
  try_except
    (lift (IntelPowerGadget.__init__ which join platform "." 1 100
             "intel_power_gadget_log.csv") ;;;
     ret true)
    (fun e => log DEBUG (msg_powergadget e) ;;; ret false).

Definition is_rapl_available {reading : Type} (reading0 : reading)
  (fs : IntelRAPL.filesystem) (platform : string) : M logger bool :=
  try_except
    (lift (IntelRAPL.__init__ reading0 fs platform "/sys/class/powercap/intel-rapl") ;;;
     ret true)
    (fun e => log DEBUG (msg_rapl e) ;;; ret false).

End Availability.

(* ================================================================== *)
(** * Concrete inputs *)
(* ================================================================== *)

(** Inputs on which the model is run in the examples below. The scoring
    functions here are stand-ins with the two properties of [fuzz.ratio]
    that the direct stage relies on; they are not fuzzywuzzy's scores. *)
Module Sample.
Import Py.

Definition lower_char (c : ascii) : ascii :=
  let n := nat_of_ascii c in
  if ((65 <=? n) && (n <=? 90))%nat then ascii_of_nat (n + 32) else c.

(** [str.lower] on ASCII letters. *)
Fixpoint lower (s : string) : string :=
  match s with
  | EmptyString => EmptyString
  | String c s' => String (lower_char c) (lower s')
  end.

(** Scores 100 on equal strings and 0 on any others. *)
Definition ratio (a b : string) : Z := if String.eqb a b then 100%Z else 0%Z.

(** Scores 100 when the reference name occurs in the detected string. *)
Definition token_set_ratio (model cpu : string) : Z :=
  if contains cpu model then 100%Z else 0%Z.

Definition cpu_power_df : TDP.DataFrame :=
  [ TDP.Row "Intel(R) Core(TM) i7-9750H CPU @ 2.60GHz" 45;
    TDP.Row "Core(TM) i7" 65;
    TDP.Row "i7-9750H" 35;
    TDP.Row "Pentium" 0 ].

Definition gadget : IntelPowerGadget.t :=
  {| IntelPowerGadget._log_file_path := "./intel_power_gadget_log.csv";
     IntelPowerGadget._system := "darwin";
     IntelPowerGadget._duration := 1;
     IntelPowerGadget._resolution := 100;
     IntelPowerGadget._cli := "PowerLog" |}.

(** A cumulative column 1, 2, 5 next to a column 10, 20, 30. *)
Definition power_log : IntelPowerGadget.DataFrame :=
  {| IntelPowerGadget.columns :=
       ["System Time"; "Cumulative Processor Energy_0(Joules)";
        "Processor Power_0(Watt)"]%string;
     IntelPowerGadget.rows :=
       [ [IntelPowerGadget.Num 0; IntelPowerGadget.Num 1; IntelPowerGadget.Num 10];
         [IntelPowerGadget.Num 1; IntelPowerGadget.Num 2; IntelPowerGadget.Num 20];
         [IntelPowerGadget.Num 2; IntelPowerGadget.Num 5; IntelPowerGadget.Num 30] ] |}.

(** A log whose only row misses a value. *)
Definition incomplete_log : IntelPowerGadget.DataFrame :=
  {| IntelPowerGadget.columns :=
       ["Cumulative Processor Energy_0(Joules)"; "Processor Power_0(Watt)"]%string;
     IntelPowerGadget.rows := [ [IntelPowerGadget.Num 1; IntelPowerGadget.NaN] ] |}.

Definition rapl_dir : string := "/sys/class/powercap/intel-rapl".

(** A root with two package domains, a DRAM domain and two plain files. *)
Definition sysfs : IntelRAPL.filesystem :=
  {| IntelRAPL.path_exists := fun p => String.eqb p rapl_dir;
     IntelRAPL.listdir := fun p =>
       if String.eqb p rapl_dir
       then Ok ["intel-rapl:0"; "enabled"; "intel-rapl:1"; "intel-rapl:2"; "uevent"]%string
       else Raise (FileNotFoundError p);
     IntelRAPL.read := fun p =>
       if String.eqb p "/sys/class/powercap/intel-rapl/intel-rapl:0/name"
       then Ok ("package-0" ++ nl)%string
       else if String.eqb p "/sys/class/powercap/intel-rapl/intel-rapl:1/name"
       then Ok ("package-1" ++ nl)%string
       else if String.eqb p "/sys/class/powercap/intel-rapl/intel-rapl:2/name"
       then Ok ("dram" ++ nl)%string
       else Raise (FileNotFoundError p) |}.

(** Counters that read 0 at [start] and 1 at [end]. *)
Definition start (path : string) (r : Q) : result Q := Ok 0%Q.
Definition end_ (delay : Q) (path : string) (r : Q) : result Q := Ok (r + 1)%Q.
Definition power_measurement (r : Q) : Q := r.

Definition rapl_self : IntelRAPL.t Q :=
  {| IntelRAPL._lin_rapl_dir := rapl_dir;
     IntelRAPL._system := "linux";
     IntelRAPL._delay := 1 # 100;
     IntelRAPL._rapl_files := [] |}.

Definition rapl_file (n file : string) : IntelRAPL.RAPLFile Q :=
  {| IntelRAPL.name := n;
     IntelRAPL.path := ("/sys/class/powercap/intel-rapl/" ++ file ++ "/energy_uj")%string;
     IntelRAPL.measured := 0%Q |}.

Definition rapl_discovered : IntelRAPL.t Q :=
  {| IntelRAPL._lin_rapl_dir := rapl_dir;
     IntelRAPL._system := "linux";
     IntelRAPL._delay := 1 # 100;
     IntelRAPL._rapl_files :=
       [ rapl_file "Processor Power_0(Watt)" "intel-rapl:0";
         rapl_file "Processor Power_1(Watt)" "intel-rapl:1";
         rapl_file "dram" "intel-rapl:2" ] |}.

(** [shutil.which] on a Mac where only the default name is on the path. *)
Definition which (cmd : string) : option string :=
  if String.eqb cmd "PowerLog" then Some "/usr/local/bin/PowerLog"%string else None.

(** The same root as [sysfs], in a file system where every other path can
    be read as well. *)
Definition sysfs_full : IntelRAPL.filesystem :=
  {| IntelRAPL.path_exists := fun _ => true;
     IntelRAPL.listdir := IntelRAPL.listdir sysfs;
     IntelRAPL.read := fun p =>
       match IntelRAPL.read sysfs p with
       | Ok content => Ok content
       | Raise _ => Ok "1"%string
       end |}.

(** A root path that exists but is a regular file: it cannot be listed. *)
Definition root_is_a_file : IntelRAPL.filesystem :=
  {| IntelRAPL.path_exists := fun p => String.eqb p rapl_dir;
     IntelRAPL.listdir := fun p =>
       Raise (Exception ("[Errno 20] Not a directory: '" ++ p ++ "'")%string);
     IntelRAPL.read := fun p => Raise (FileNotFoundError p) |}.

End Sample.

(* ================================================================== *)
(** * Facts about the runtime fragment *)
(* ================================================================== *)

Module PyFacts.
Import Py.
Local Open Scope Z_scope.

Lemma fold_max_ge_init (l : list Z) (x : Z) : x <= fold_left Z.max l x.
Proof.
  revert x; induction l as [|y l IH]; intros x; simpl; [lia|].
  specialize (IH (Z.max x y)); lia.
Qed.

Lemma fold_max_ge_elem (l : list Z) (x y : Z) :
  In y l -> y <= fold_left Z.max l x.
Proof.
  revert x; induction l as [|z l IH]; intros x Hin; simpl in *; [contradiction|].
  destruct Hin as [->|Hin].
  - pose proof (fold_max_ge_init l (Z.max x y)); lia.
  - now apply IH.
Qed.

Lemma fold_max_attained (l : list Z) (x : Z) :
  fold_left Z.max l x = x \/ In (fold_left Z.max l x) l.
Proof.
  revert x; induction l as [|y l IH]; intros x; simpl; [now left|].
  destruct (IH (Z.max x y)) as [E|Hin]; [|now right; right].
  rewrite E. destruct (Z.max_spec x y) as [[_ ->]|[_ ->]]; [right|]; now left.
Qed.

(** [max] returns an element of the list that bounds the others. *)
Lemma max_spec (l : list Z) (m : Z) :
  max l = Ok m -> In m l /\ (forall y, In y l -> y <= m).
Proof.
  destruct l as [|x l]; simpl; [discriminate|].
  intros [= <-]. split.
  - destruct (fold_max_attained l x) as [->|H]; [now left|now right].
  - intros y [<-|Hy]; [apply fold_max_ge_init|now apply fold_max_ge_elem].
Qed.

Lemma max_defined (l : list Z) : l <> [] -> exists m, max l = Ok m.
Proof. destruct l; [congruence|]; intros _; eexists; reflexivity. Qed.

Lemma max_unique (l : list Z) (m : Z) :
  In m l -> (forall y, In y l -> y <= m) -> max l = Ok m.
Proof.
  intros Hin Hub.
  destruct (max_defined l) as [m' Hm']; [now destruct l|].
  destruct (max_spec _ _ Hm') as [Hin' Hub'].
  rewrite Hm'. f_equal. specialize (Hub _ Hin'). specialize (Hub' _ Hin). lia.
Qed.

(** [index] finds the first position holding the value. *)
Lemma index_from_first (l : list Z) (x : Z) (k : nat) :
  In x l ->
  exists i, index_from l x k = Ok (k + i)%nat
            /\ nth_error l i = Some x
            /\ forall j y, (j < i)%nat -> nth_error l j = Some y -> y <> x.
Proof.
  revert k; induction l as [|y l IH]; intros k Hin; [contradiction|].
  simpl. destruct (Z.eqb_spec y x) as [->|Hne].
  - exists 0%nat. rewrite Nat.add_0_r. repeat split; intros; lia.
  - destruct Hin as [->|Hin]; [congruence|].
    destruct (IH (S k) Hin) as (i & Hi & Hn & Hf).
    exists (S i). rewrite Nat.add_succ_r. repeat split; trivial.
    intros [|j] z Hj Hz; simpl in Hz; [congruence|].
    apply (Hf j); [lia|assumption].
Qed.

Lemma index_first (l : list Z) (x : Z) :
  In x l ->
  exists i, index l x = Ok i
            /\ nth_error l i = Some x
            /\ forall j y, (j < i)%nat -> nth_error l j = Some y -> y <> x.
Proof. intros H; exact (index_from_first l x 0%nat H). Qed.

Lemma map_result_Forall2 {A B} (f : A -> result B) (xs : list A) (ys : list B) :
  map_result f xs = Ok ys -> Forall2 (fun x y => f x = Ok y) xs ys.
Proof.
  revert ys; induction xs as [|x xs IH]; simpl; intros ys.
  - intros [= <-]; constructor.
  - destruct (f x) as [y|e] eqn:Ef; simpl; [|discriminate].
    destruct (map_result f xs) as [ys'|e]; simpl; [|discriminate].
    intros [= <-]; constructor; auto.
Qed.

Lemma map_result_defined {A B} (f : A -> result B) (xs : list A) :
  (forall x, In x xs -> exists y, f x = Ok y) -> exists ys, map_result f xs = Ok ys.
Proof.
  induction xs as [|x xs IH]; simpl; intros H; [eexists; reflexivity|].
  destruct (H x (or_introl eq_refl)) as [y ->].
  destruct IH as [ys ->]; [intros; apply H; now right|].
  eexists; reflexivity.
Qed.

End PyFacts.

(* ================================================================== *)
(** * Facts about the TDP resolver *)
(* ================================================================== *)

Module TDPFacts.
Import Py PyFacts TDP.
Local Open Scope Z_scope.

Section MaxIdxs.

Variable m : Z.

Local Abbreviation idxs_from := (max_idxs_from m).

Lemma idxs_from_cons (k : nat) (x : Z) (ratios : list Z) :
  idxs_from k (x :: ratios)
  = if Z.eqb x m then k :: idxs_from (S k) ratios else idxs_from (S k) ratios.
Proof. unfold max_idxs_from; simpl. now destruct (Z.eqb x m). Qed.

Lemma In_idxs_from (ratios : list Z) (k i : nat) :
  In i (idxs_from k ratios)
  <-> (k <= i)%nat /\ nth_error ratios (i - k) = Some m.
Proof.
  revert k; induction ratios as [|x ratios IH]; intros k.
  - unfold max_idxs_from; simpl. split; [contradiction|].
    intros [_ H]. now destruct (i - k)%nat.
  - rewrite idxs_from_cons.
    assert (Hstep : In i (idxs_from (S k) ratios)
                    <-> (k < i)%nat /\ nth_error (x :: ratios) (i - k) = Some m).
    { rewrite IH. split; intros [Hk Hn]; split; try lia.
      - replace (i - k)%nat with (S (i - S k)) by lia. exact Hn.
      - replace (i - k)%nat with (S (i - S k)) in Hn by lia. exact Hn. }
    destruct (Z.eqb_spec x m) as [->|Hne].
    + simpl In. rewrite Hstep. split.
      * intros [<-|[Hk Hn]]; [|split; [lia|exact Hn]].
        split; [lia|]. now rewrite Nat.sub_diag.
      * intros [Hk Hn]. destruct (Nat.eq_dec k i) as [->|Hki]; [now left|].
        right; split; [lia|exact Hn].
    + rewrite Hstep. split; intros [Hk Hn]; split; try lia; try exact Hn.
      destruct (Nat.eq_dec k i) as [->|Hki]; [|lia].
      rewrite Nat.sub_diag in Hn; simpl in Hn. congruence.
Qed.

Lemma idxs_from_head (ratios : list Z) (k i : nat) (rest : list nat) :
  idxs_from k ratios = i :: rest -> forall j, In j rest -> (i < j)%nat.
Proof.
  revert k i rest; induction ratios as [|x ratios IH]; intros k i rest.
  - unfold max_idxs_from; simpl; discriminate.
  - rewrite idxs_from_cons. destruct (Z.eqb x m).
    + intros [= <- <-] j Hj. apply In_idxs_from in Hj. lia.
    + apply IH.
Qed.

Lemma In_max_idxs (ratios : list Z) (i : nat) :
  In i (_get_max_idxs ratios m) <-> nth_error ratios i = Some m.
Proof.
  unfold _get_max_idxs, enumerate.
  change (In i (idxs_from 0 ratios) <-> nth_error ratios i = Some m).
  rewrite In_idxs_from, Nat.sub_0_r. split; [now intros [_ H]|]. split; [lia|assumption].
Qed.

Lemma max_idxs_head (ratios : list Z) (i : nat) (rest : list nat) :
  _get_max_idxs ratios m = i :: rest -> forall j, In j rest -> (i < j)%nat.
Proof. unfold _get_max_idxs, enumerate. apply idxs_from_head. Qed.

End MaxIdxs.

Lemma In_token_idxs (token_set_ratio : string -> string -> Z)
  (model : string) (cpu_df : DataFrame) (m : Z) (i : nat) :
  In i (_get_max_idxs (_get_token_set_matches token_set_ratio model cpu_df) m)
  <-> attains token_set_ratio model cpu_df m i.
Proof.
  rewrite In_max_idxs. unfold _get_token_set_matches, attains.
  rewrite nth_error_map.
  destruct (nth_error (names cpu_df) i) as [n|]; simpl; split.
  - intros [= H]. now exists n.
  - intros (n' & [= <-] & H). now rewrite H.
  - discriminate.
  - intros (n' & H & _). discriminate.
Qed.

(** [_get_cpus] on positions of the table returns the names there. *)
Lemma get_cpus_defined (cpu_df : DataFrame) (idxs : list nat) :
  (forall i, In i idxs -> exists n, nth_error (names cpu_df) i = Some n) ->
  exists cpus, _get_cpus cpu_df idxs = Ok cpus
               /\ Forall2 (fun i c => nth_error (names cpu_df) i = Some c) idxs cpus.
Proof.
  intros Hvalid.
  destruct (map_result_defined (name_at_label cpu_df) idxs) as [cpus Hc].
  - intros i Hi. destruct (Hvalid i Hi) as [n Hn].
    exists n. unfold name_at_label. now rewrite Hn.
  - exists cpus. split; [exact Hc|].
    apply map_result_Forall2 in Hc.
    eapply Forall2_impl; [|exact Hc].
    intros i c. unfold name_at_label.
    destruct (nth_error (names cpu_df) i); [now intros [= ->]|discriminate].
Qed.

Lemma get_cpus_names (cpu_df : DataFrame) (idxs : list nat) (cpus : list string) :
  _get_cpus cpu_df idxs = Ok cpus -> forall c, In c cpus -> In c (names cpu_df).
Proof.
  intros Hc. apply map_result_Forall2 in Hc.
  induction Hc as [|i c idxs cpus Hic _ IH]; intros c' Hin; [contradiction|].
  destruct Hin as [<-|Hin]; [|now apply IH].
  unfold name_at_label in Hic.
  destruct (nth_error (names cpu_df) i) eqn:E; [|discriminate].
  injection Hic as ->. eapply nth_error_In; eassumption.
Qed.

(** ** The direct stage *)

Section DirectStage.

(** What the direct stage needs of [fuzz.ratio]: a score is at most 100, and
    a string scores 100 against itself. *)
Variable lower : string -> string.
Variable ratio : string -> string -> Z.
Hypothesis ratio_le_100 : forall a b, ratio a b <= 100.
Hypothesis ratio_same : forall a, ratio a a = 100.

Lemma direct_max_100 (model : string) (cpu_df : DataFrame) (entry : string) :
  In entry (names cpu_df) -> lower model = lower entry ->
  In 100 (_get_direct_matches lower ratio model cpu_df)
  /\ max (_get_direct_matches lower ratio model cpu_df) = Ok 100.
Proof.
  intros Hin Heq.
  assert (H100 : In 100 (_get_direct_matches lower ratio model cpu_df)).
  { unfold _get_direct_matches. apply in_map_iff.
    exists entry. split; [|exact Hin]. rewrite Heq. apply ratio_same. }
  split; [exact H100|].
  apply max_unique; [exact H100|].
  intros y Hy. unfold _get_direct_matches in Hy.
  apply in_map_iff in Hy. destruct Hy as (n & <- & _). apply ratio_le_100.
Qed.

(** C1. A detected model that equals a reference name up to case is resolved
    by the direct stage: the maximum whole-string ratio is 100, the entry
    returned is the first one of the table that attains it, and this holds
    for every token-set scoring and for both settings of [greedy]. *)
Theorem direct_match_priority
  (model : string) (cpu_df : DataFrame) (entry : string) :
  In entry (names cpu_df) ->
  lower model = lower entry ->
  exists (idx : nat) (cpu : string),
    nth_error (names cpu_df) idx = Some cpu
    /\ max (_get_direct_matches lower ratio model cpu_df)
       = Ok (ratio (lower model) (lower cpu))
    /\ THRESHOLD_DIRECT <= ratio (lower model) (lower cpu)
    /\ (forall j n, (j < idx)%nat -> nth_error (names cpu_df) j = Some n ->
                    ratio (lower model) (lower n) <> ratio (lower model) (lower cpu))
    /\ forall (token_set_ratio : string -> string -> Z) (greedy : bool),
         _get_matching_cpu lower ratio token_set_ratio model cpu_df greedy
         = Ok (Some cpu).
Proof.
  intros Hin Heq.
  destruct (direct_max_100 model cpu_df entry Hin Heq) as [H100 Hmax].
  destruct (index_first _ _ H100) as (idx & Hidx & Hnth & Hfirst).
  unfold _get_direct_matches in Hnth. rewrite nth_error_map in Hnth.
  destruct (nth_error (names cpu_df) idx) as [cpu|] eqn:Hcpu; [|discriminate].
  simpl in Hnth. injection Hnth as Hscore.
  exists idx, cpu. rewrite Hscore. repeat split.
  - exact Hcpu.
  - exact Hmax.
  - unfold THRESHOLD_DIRECT; lia.
  - intros j n Hj Hn. apply (Hfirst j); [exact Hj|].
    unfold _get_direct_matches. rewrite nth_error_map, Hn. reflexivity.
  - intros token_set_ratio greedy. unfold _get_matching_cpu.
    rewrite Hmax. simpl bind.
    assert (Hne : names cpu_df <> []) by (intros E; rewrite E in Hin; contradiction).
    destruct (max_defined (_get_token_set_matches token_set_ratio model cpu_df))
      as [mt ->].
    { unfold _get_token_set_matches. destruct (names cpu_df); [congruence|discriminate]. }
    simpl bind. unfold THRESHOLD_DIRECT. simpl (100 <=? 100).
    unfold _get_single_direct_match. rewrite Hidx. simpl bind.
    unfold name_iloc. rewrite Hcpu. reflexivity.
Qed.

End DirectStage.

(** ** The token-set stage *)

Section TokenSetStage.

Variable lower : string -> string.
Variable ratio : string -> string -> Z.
Variable token_set_ratio : string -> string -> Z.

Local Abbreviation direct := (_get_direct_matches lower ratio).
Local Abbreviation token := (_get_token_set_matches token_set_ratio).
Local Abbreviation matching := (_get_matching_cpu lower ratio token_set_ratio).

Lemma token_stage_below (model : string) (cpu_df : DataFrame) (greedy : bool)
  (max_direct max_token : Z) :
  max (direct model cpu_df) = Ok max_direct -> max_direct < THRESHOLD_DIRECT ->
  max (token model cpu_df) = Ok max_token -> max_token < THRESHOLD_TOKEN_SET ->
  matching model cpu_df greedy = Ok None.
Proof.
  unfold _get_matching_cpu. intros -> Hd -> Ht. simpl bind.
  destruct (Z.leb_spec THRESHOLD_DIRECT max_direct); [lia|].
  destruct (Z.ltb_spec max_token THRESHOLD_TOKEN_SET); [reflexivity|lia].
Qed.

(** Past both thresholds the outcome is decided by the names found at the
    positions of the maximal token-set ratio. *)
Lemma token_stage_eval (model : string) (cpu_df : DataFrame) (greedy : bool)
  (max_direct max_token : Z) :
  max (direct model cpu_df) = Ok max_direct -> max_direct < THRESHOLD_DIRECT ->
  max (token model cpu_df) = Ok max_token -> THRESHOLD_TOKEN_SET <= max_token ->
  exists cpus,
    Forall2 (fun i c => nth_error (names cpu_df) i = Some c)
            (_get_max_idxs (token model cpu_df) max_token) cpus
    /\ matching model cpu_df greedy
       = if (truthy_list cpus && (List.length cpus =? 1)%nat) || greedy
         then bind (getitem cpus 0) (fun cpu_matched => Ok (Some cpu_matched))
         else Ok None.
Proof.
  intros Hd Hlt Ht Hge.
  destruct (get_cpus_defined cpu_df (_get_max_idxs (token model cpu_df) max_token))
    as (cpus & Hcpus & Hall).
  { intros i Hi. apply In_token_idxs in Hi. destruct Hi as (n & Hn & _). now exists n. }
  exists cpus. split; [exact Hall|].
  unfold _get_matching_cpu.
  rewrite Hd, Ht. simpl bind.
  destruct (Z.leb_spec THRESHOLD_DIRECT max_direct); [lia|].
  destruct (Z.ltb_spec max_token THRESHOLD_TOKEN_SET); [lia|].
  rewrite Hcpus. reflexivity.
Qed.

Lemma token_max_defined (model : string) (cpu_df : DataFrame) (max_direct : Z) :
  max (direct model cpu_df) = Ok max_direct ->
  exists max_token, max (token model cpu_df) = Ok max_token.
Proof.
  intros Hd. apply max_defined. unfold _get_token_set_matches.
  unfold _get_direct_matches in Hd.
  destruct (names cpu_df); [discriminate|discriminate].
Qed.

(** A single entry at the maximum is the one returned. *)
Lemma token_stage_single (model : string) (cpu_df : DataFrame) (greedy : bool)
  (max_direct max_token : Z) (i : nat) (cpu : string) :
  max (direct model cpu_df) = Ok max_direct -> max_direct < THRESHOLD_DIRECT ->
  max (token model cpu_df) = Ok max_token -> THRESHOLD_TOKEN_SET <= max_token ->
  attains token_set_ratio model cpu_df max_token i ->
  (forall j, attains token_set_ratio model cpu_df max_token j -> j = i) ->
  nth_error (names cpu_df) i = Some cpu ->
  matching model cpu_df greedy = Ok (Some cpu).
Proof.
  intros Hd Hlt Ht Hge Hi Huniq Hcpu.
  destruct (token_stage_eval model cpu_df greedy _ _ Hd Hlt Ht Hge)
    as (cpus & Hall & ->).
  assert (Hidxs : _get_max_idxs (token model cpu_df) max_token = [i]).
  { pose proof (proj2 (In_token_idxs token_set_ratio model cpu_df max_token i) Hi) as Hin.
    destruct (_get_max_idxs (token model cpu_df) max_token) as [|k rest] eqn:E;
      [contradiction|].
    assert (Hk : k = i).
    { apply Huniq, In_token_idxs. rewrite E. now left. }
    subst k. destruct rest as [|k' rest]; [reflexivity|exfalso].
    assert (Hk' : k' = i).
    { apply Huniq, In_token_idxs. rewrite E. right; now left. }
    pose proof (max_idxs_head _ _ _ _ E k' (or_introl eq_refl)). lia. }
  rewrite Hidxs in Hall.
  inversion Hall as [|? c ? cs Hc Hnil]; subst. inversion Hnil; subst.
  rewrite Hcpu in Hc. injection Hc as <-. reflexivity.
Qed.

(** Several entries at the maximum: nothing without [greedy], the first of
    them with it. *)
Lemma token_stage_tie (model : string) (cpu_df : DataFrame)
  (max_direct max_token : Z) (i j : nat) :
  max (direct model cpu_df) = Ok max_direct -> max_direct < THRESHOLD_DIRECT ->
  max (token model cpu_df) = Ok max_token -> THRESHOLD_TOKEN_SET <= max_token ->
  i <> j ->
  attains token_set_ratio model cpu_df max_token i ->
  attains token_set_ratio model cpu_df max_token j ->
  matching model cpu_df false = Ok None
  /\ exists k cpu,
       attains token_set_ratio model cpu_df max_token k
       /\ (forall j', attains token_set_ratio model cpu_df max_token j' -> (k <= j')%nat)
       /\ nth_error (names cpu_df) k = Some cpu
       /\ matching model cpu_df true = Ok (Some cpu).
Proof.
  intros Hd Hlt Ht Hge Hij Hi Hj.
  destruct (token_stage_eval model cpu_df false _ _ Hd Hlt Ht Hge)
    as (cpus & Hall & ->).
  destruct (token_stage_eval model cpu_df true _ _ Hd Hlt Ht Hge)
    as (cpus' & Hall' & ->).
  apply In_token_idxs in Hi, Hj.
  destruct (_get_max_idxs (token model cpu_df) max_token) as [|k rest] eqn:E;
    [contradiction|].
  destruct rest as [|k' rest].
  { exfalso. destruct Hi as [<-|[]]. destruct Hj as [<-|[]]. congruence. }
  inversion Hall as [|? c ? cs Hc Hrest]; subst.
  inversion Hrest as [|? c' ? cs0 Hc' _]; subst.
  inversion Hall' as [|? d ? ds Hd' Hrest']; subst.
  simpl. split; [reflexivity|].
  exists k, d. repeat split.
  - apply In_token_idxs. rewrite E. now left.
  - intros j' Hj'. apply In_token_idxs in Hj'.
    rewrite E in Hj'. destruct Hj' as [<-|Hj']; [lia|].
    pose proof (max_idxs_head _ _ _ _ E j' Hj'). lia.
  - exact Hd'.
  - rewrite orb_true_r. reflexivity.
Qed.

(** C2. When the direct stage does not match (the maximal whole-string ratio
    is below its threshold): a maximal token-set ratio below 100 gives no
    match; a single entry attaining the maximum is selected; several
    entries attaining it give no match without [greedy] and, with [greedy],
    the one that comes first in the table. *)
Theorem token_set_stage_policy
  (model : string) (cpu_df : DataFrame) (greedy : bool) (max_direct : Z) :
  max (direct model cpu_df) = Ok max_direct ->
  max_direct < THRESHOLD_DIRECT ->
  exists max_token,
    max (token model cpu_df) = Ok max_token
    /\ (max_token < THRESHOLD_TOKEN_SET -> matching model cpu_df greedy = Ok None)
    /\ (THRESHOLD_TOKEN_SET <= max_token ->
        forall i cpu,
          attains token_set_ratio model cpu_df max_token i ->
          (forall j, attains token_set_ratio model cpu_df max_token j -> j = i) ->
          nth_error (names cpu_df) i = Some cpu ->
          matching model cpu_df greedy = Ok (Some cpu))
    /\ (THRESHOLD_TOKEN_SET <= max_token ->
        forall i j,
          i <> j ->
          attains token_set_ratio model cpu_df max_token i ->
          attains token_set_ratio model cpu_df max_token j ->
          (greedy = false -> matching model cpu_df greedy = Ok None)
          /\ (greedy = true ->
              exists k cpu,
                attains token_set_ratio model cpu_df max_token k
                /\ (forall j', attains token_set_ratio model cpu_df max_token j' ->
                               (k <= j')%nat)
                /\ nth_error (names cpu_df) k = Some cpu
                /\ matching model cpu_df greedy = Ok (Some cpu))).
Proof.
  intros Hd Hlt.
  destruct (token_max_defined model cpu_df max_direct Hd) as [max_token Ht].
  exists max_token. split; [exact Ht|]. split; [|split].
  - intros Hbelow. eapply token_stage_below; eassumption.
  - intros Hge i cpu Hi Huniq Hcpu. eapply token_stage_single; eassumption.
  - intros Hge i j Hij Hi Hj.
    destruct (token_stage_tie model cpu_df _ _ i j Hd Hlt Ht Hge Hij Hi Hj)
      as [Hoff Hon].
    split; intros ->; assumption.
Qed.

End TokenSetStage.

(** ** From the match to the reported pair *)

Section Resolution.

Variable lower : string -> string.
Variable ratio : string -> string -> Z.
Variable token_set_ratio : string -> string -> Z.

Local Abbreviation matching := (_get_matching_cpu lower ratio token_set_ratio).
Local Abbreviation registry :=
  (_get_cpu_power_from_registry lower ratio token_set_ratio).
Local Abbreviation main := (_main lower ratio token_set_ratio).

(** A name returned by the matching procedure is read from the table. *)
Lemma matching_in_names (model : string) (cpu_df : DataFrame) (greedy : bool)
  (cpu : string) :
  matching model cpu_df greedy = Ok (Some cpu) -> In cpu (names cpu_df).
Proof.
  unfold _get_matching_cpu.
  destruct (max (_get_direct_matches lower ratio model cpu_df)) as [md|]; [|discriminate].
  destruct (max (_get_token_set_matches token_set_ratio model cpu_df)) as [mt|];
    [|discriminate].
  simpl bind. destruct (THRESHOLD_DIRECT <=? md).
  - unfold _get_single_direct_match.
    destruct (index _ md) as [idx|]; [|discriminate]. simpl bind.
    unfold name_iloc. destruct (nth_error (names cpu_df) idx) as [n|] eqn:E;
      [|discriminate].
    simpl. intros [= <-]. eapply nth_error_In; eassumption.
  - destruct (mt <? THRESHOLD_TOKEN_SET); [discriminate|].
    destruct (_get_cpus cpu_df _) as [cpus|] eqn:E; [|discriminate]. simpl bind.
    destruct (_ || greedy); [|discriminate].
    destruct cpus as [|c cs]; [discriminate|]. simpl. intros [= <-].
    eapply get_cpus_names; [exact E|now left].
Qed.

(** The constant-power lookup returns the TDP of the first row that carries
    the name. *)
Lemma constant_power_first (cpu : string) (cpu_df : DataFrame) :
  In cpu (names cpu_df) ->
  exists before r after,
    cpu_df = before ++ r :: after
    /\ Name r = cpu
    /\ (forall r', In r' before -> Name r' <> cpu)
    /\ _get_cpu_constant_power cpu cpu_df = Ok (TDP r).
Proof.
  unfold _get_cpu_constant_power.
  induction cpu_df as [|r0 df IH]; simpl; [contradiction|].
  destruct (String.eqb_spec (Name r0) cpu) as [E|Hne].
  - intros _. exists [], r0, df. simpl. repeat split; trivial. contradiction.
  - intros [E|Hin]; [contradiction|].
    destruct (IH Hin) as (before & r & after & -> & Hr & Hfirst & Hval).
    exists (r0 :: before), r, after. repeat split; trivial.
    intros r' [<-|Hr']; [exact Hne|now apply Hfirst].
Qed.

(** C10. A name returned by the matching procedure is a name of the table,
    so the constant-power lookup finds a row: it returns the TDP of the
    first row with that name and does not raise. *)
Theorem matched_name_has_power
  (model : string) (cpu_df : DataFrame) (greedy : bool) (cpu : string) :
  matching model cpu_df greedy = Ok (Some cpu) ->
  In cpu (names cpu_df)
  /\ exists before r after,
       cpu_df = before ++ r :: after
       /\ Name r = cpu
       /\ (forall r', In r' before -> Name r' <> cpu)
       /\ _get_cpu_constant_power cpu cpu_df = Ok (TDP r).
Proof.
  intros H. apply matching_in_names in H. split; [exact H|].
  now apply constant_power_first.
Qed.

(** C7. Two runs that detect the same model string against the same table
    report the same pair, or raise the same exception, whatever the
    [cpuinfo] dictionaries and the loggers they start from. *)
Theorem resolution_deterministic
  (cpu_info1 cpu_info2 : cpu_info_t) (cpu_df : DataFrame) (lg1 lg2 : logger) :
  _detect_cpu_model cpu_info1 = _detect_cpu_model cpu_info2 ->
  fst (main cpu_info1 cpu_df lg1) = fst (main cpu_info2 cpu_df lg2).
Proof.
  unfold _main. intros <-.
  destruct (_detect_cpu_model cpu_info1) as [model|]; [|reflexivity].
  destruct (truthy_str model); [|reflexivity].
  unfold bindM, lift.
  destruct (registry cpu_df model) as [power|e]; [|reflexivity].
  destruct (truthy_opt_int power); reflexivity.
Qed.

(** What [_main] does with the answer of the registry. *)
Lemma main_unknown (cpu_info : cpu_info_t) (cpu_df : DataFrame) (lg : logger)
  (model : string) (power : option Z) :
  _detect_cpu_model cpu_info = Some model ->
  truthy_str model = true ->
  registry cpu_df model = Ok power ->
  truthy_opt_int power = false ->
  main cpu_info cpu_df lg
  = (Ok (model, None), lg ++ [LogRecord WARNING (msg_unknown model)]).
Proof.
  intros Hd Ht Hr Hp. unfold _main. rewrite Hd, Ht.
  unfold bindM, lift. rewrite Hr, Hp. reflexivity.
Qed.

(** C8. The registry lookup runs the matching procedure with [greedy] off:
    it answers [None] whenever the non-greedy match is [None]. On a tie of
    the token-set stage it therefore reports no TDP, and so does [_main],
    although the greedy match of the same input selects an entry. *)
Theorem registry_is_never_greedy
  (model : string) (cpu_df : DataFrame) (max_direct max_token : Z) (i j : nat) :
  max (_get_direct_matches lower ratio model cpu_df) = Ok max_direct ->
  max_direct < THRESHOLD_DIRECT ->
  max (_get_token_set_matches token_set_ratio model cpu_df) = Ok max_token ->
  THRESHOLD_TOKEN_SET <= max_token ->
  i <> j ->
  attains token_set_ratio model cpu_df max_token i ->
  attains token_set_ratio model cpu_df max_token j ->
  matching model cpu_df false = Ok None
  /\ registry cpu_df model = Ok None
  /\ (exists cpu, matching model cpu_df true = Ok (Some cpu))
  /\ forall cpu_info lg,
       _detect_cpu_model cpu_info = Some model ->
       truthy_str model = true ->
       main cpu_info cpu_df lg
       = (Ok (model, None), lg ++ [LogRecord WARNING (msg_unknown model)]).
Proof.
  intros Hd Hlt Ht Hge Hij Hi Hj.
  destruct (token_stage_tie lower ratio token_set_ratio model cpu_df _ _ i j
              Hd Hlt Ht Hge Hij Hi Hj) as (Hnone & k & cpu & _ & _ & _ & Hgreedy).
  assert (Hreg : registry cpu_df model = Ok None).
  { unfold _get_cpu_power_from_registry. rewrite Hnone. reflexivity. }
  repeat split; trivial.
  - now exists cpu.
  - intros cpu_info lg Hdet Htruthy.
    eapply main_unknown; eauto.
Qed.

(** C9. A matched entry whose TDP is 0 is reported like an unknown model:
    [_main] returns the detected string with no TDP and logs the same
    warning as when nothing matched; a TDP that is reported is not 0. *)
Theorem zero_tdp_is_unknown
  (cpu_info : cpu_info_t) (cpu_df : DataFrame) (lg : logger) :
  (forall model cpu,
      _detect_cpu_model cpu_info = Some model ->
      truthy_str model = true ->
      matching model cpu_df false = Ok (Some cpu) ->
      truthy_str cpu = true ->
      _get_cpu_constant_power cpu cpu_df = Ok 0 ->
      main cpu_info cpu_df lg
      = (Ok (model, None), lg ++ [LogRecord WARNING (msg_unknown model)]))
  /\ (forall model,
        _detect_cpu_model cpu_info = Some model ->
        truthy_str model = true ->
        matching model cpu_df false = Ok None ->
        main cpu_info cpu_df lg
        = (Ok (model, None), lg ++ [LogRecord WARNING (msg_unknown model)]))
  /\ (forall model tdp lg',
        main cpu_info cpu_df lg = (Ok (model, Some tdp), lg') -> tdp <> 0).
Proof.
  split; [|split].
  - intros model cpu Hd Ht Hm Hc Hp.
    eapply main_unknown with (power := Some 0); eauto.
    unfold _get_cpu_power_from_registry. rewrite Hm. simpl bind.
    rewrite Hc, Hp. reflexivity.
  - intros model Hd Ht Hm.
    eapply main_unknown with (power := None); eauto.
    unfold _get_cpu_power_from_registry. rewrite Hm. reflexivity.
  - intros model tdp lg'. unfold _main.
    destruct (_detect_cpu_model cpu_info) as [detected|]; [|discriminate].
    destruct (truthy_str detected); [|discriminate].
    unfold bindM, lift.
    destruct (registry cpu_df detected) as [power|e]; [|discriminate].
    destruct (truthy_opt_int power) eqn:Hp; [|discriminate].
    simpl. intros [= _ -> _]. unfold truthy_opt_int, truthy_int in Hp.
    intros ->. discriminate.
Qed.

End Resolution.

End TDPFacts.

(* ================================================================== *)
(** * Facts about the Power Gadget backend *)
(* ================================================================== *)

Module IntelPowerGadgetFacts.
Import Py IntelPowerGadget.

(** ** Dictionaries *)

Lemma dict_get_set {V} (d : dict V) (k k' : string) (v : V) :
  dict_get (dict_set d k v) k'
  = if String.eqb k k' then Some v else dict_get d k'.
Proof.
  induction d as [|[k0 v0] d IH]; simpl.
  - reflexivity.
  - destruct (String.eqb_spec k0 k) as [->|Hne]; simpl.
    + destruct (String.eqb k k'); reflexivity.
    + rewrite IH. destruct (String.eqb_spec k0 k') as [->|Hne'].
      * destruct (String.eqb_spec k k'); [congruence|reflexivity].
      * reflexivity.
Qed.

Lemma in_keys_get {V} (d : dict V) (k : string) :
  In k (keys d) <-> dict_get d k <> None.
Proof.
  unfold keys. induction d as [|[k0 v0] d IH]; simpl.
  - split; [contradiction|congruence].
  - destruct (String.eqb_spec k0 k) as [->|Hne].
    + split; [discriminate|now left].
    + rewrite <- IH. split; [intros [E|H]; [contradiction|exact H]|now right].
Qed.

(** ** Columns of a frame without missing values *)

Lemma position_Some (col : string) (cols : list string) (j : nat) :
  position col cols = Some j -> (j < List.length cols)%nat /\ In col cols.
Proof.
  revert j; induction cols as [|c cols IH]; simpl; intros j; [discriminate|].
  destruct (String.eqb_spec c col) as [->|Hne].
  - intros [= <-]. split; [lia|now left].
  - destruct (position col cols) as [j'|]; simpl; [|discriminate].
    intros [= <-]. destruct (IH j' eq_refl). split; [lia|now right].
Qed.

Lemma position_defined (col : string) (cols : list string) :
  In col cols -> exists j, position col cols = Some j.
Proof.
  induction cols as [|c cols IH]; simpl; [contradiction|].
  destruct (String.eqb_spec c col) as [->|Hne]; [now exists 0%nat|].
  intros [E|Hin]; [contradiction|].
  destruct (IH Hin) as [j ->]. now exists (S j).
Qed.

Lemma dropna_complete (df : DataFrame) (r : list cell) (j : nat) :
  In r (rows (dropna df)) -> (j < List.length (columns df))%nat ->
  exists q, at_ r j = Num q.
Proof.
  unfold dropna; simpl. intros Hr Hj. apply filter_In in Hr. destruct Hr as [_ Hr].
  apply negb_true_iff in Hr.
  destruct (at_ r j) as [q|] eqn:E; [now exists q|exfalso].
  assert (Hex : existsb (fun j => isna (at_ r j)) (seq 0 (List.length (columns df))) = true).
  { apply existsb_exists. exists j. split; [apply in_seq; lia|now rewrite E]. }
  congruence.
Qed.

Lemma dropna_column (df : DataFrame) (j : nat) :
  (j < List.length (columns df))%nat ->
  map (fun r => at_ r j) (rows (dropna df))
  = map Num (map (fun r => number_of (at_ r j)) (rows (dropna df))).
Proof.
  intros Hj. rewrite map_map. apply map_ext_in. intros r Hr.
  destruct (dropna_complete df r j Hr Hj) as [q ->]. reflexivity.
Qed.

Lemma iloc_last_Num (qs : list Q) :
  qs <> [] -> iloc_last (map Num qs) = Ok (Num (last qs 0%Q)).
Proof.
  intros Hne. destruct (exists_last Hne) as (qs' & q & ->).
  unfold iloc_last. rewrite map_app, rev_app_distr, last_last. reflexivity.
Qed.

Lemma numbers_Num (qs : list Q) : numbers (map Num qs) = qs.
Proof.
  unfold numbers. induction qs as [|q qs IH]; simpl; [reflexivity|]. now rewrite IH.
Qed.

Lemma mean_Num (qs : list Q) :
  qs <> [] ->
  mean (map Num qs) = Num (sum qs / inject_Z (Z.of_nat (List.length qs))).
Proof.
  intros Hne. unfold mean. rewrite numbers_Num. destruct qs; [congruence|reflexivity].
Qed.

(** ** Running the method *)

Lemma is_excluded_In (col : string) : is_excluded col = true <-> In col excluded.
Proof.
  unfold is_excluded. rewrite existsb_exists. split.
  - intros (x & Hx & E). apply String.eqb_eq in E. now subst.
  - intros H. exists col. split; [exact H|apply String.eqb_refl].
Qed.

Lemma log_values_eval {V} (self : t) (returncode : Z) :
  exists warn,
    (warn = [] \/ exists msg, warn = [LogRecord WARNING msg])
    /\ forall (d : dict V) (lg : logger),
         _log_values self returncode (d, lg) = (Ok tt, (d, lg ++ warn)).
Proof.
  unfold _log_values.
  assert (Hcheck : exists warn,
             (warn = [] \/ exists msg, warn = [LogRecord WARNING msg])
             /\ forall (d : dict V) (lg : logger),
                  (if negb (returncode =? 0)%Z
                   then logf WARNING (msg_returncode returncode) else ret tt) (d, lg)
                  = (Ok tt, (d, lg ++ warn))).
  { destruct (negb (returncode =? 0)%Z).
    - eexists. split; [right; eexists; reflexivity|]. intros; reflexivity.
    - exists []. split; [now left|]. intros. unfold ret. now rewrite app_nil_r. }
  destruct (startswith (_system self) "win"); [exact Hcheck|].
  destruct (startswith (_system self) "darwin"); [exact Hcheck|].
  exists []. split; [now left|]. intros. unfold ret. now rewrite app_nil_r.
Qed.

Lemma aggregate_column_eval (df : DataFrame) (col : string)
  (d : dict cell) (lg : logger) :
  rows (dropna df) <> [] -> In col (columns df) ->
  aggregate_column (dropna df) col (d, lg) = (Ok tt, (fill_step df d col, lg)).
Proof.
  intros Hrows Hin. unfold aggregate_column, fill_step. fold (is_excluded col).
  destruct (is_excluded col); [reflexivity|].
  destruct (position_defined col (columns df) Hin) as [j Hj].
  destruct (position_Some _ _ _ Hj) as [Hlt _].
  assert (Hcol : column (dropna df) col = Ok (map Num (kept_numbers df j))).
  { unfold column. simpl columns. rewrite Hj. f_equal. now apply dropna_column. }
  assert (Hne : kept_numbers df j <> []).
  { unfold kept_numbers. destruct (rows (dropna df)); [congruence|discriminate]. }
  unfold expected, aggregate. rewrite Hj.
  destruct (contains "Cumulative" col); unfold bindM, lift; rewrite Hcol.
  - rewrite (iloc_last_Num _ Hne). reflexivity.
  - rewrite (mean_Num _ Hne). reflexivity.
Qed.

Lemma for_each_eval (df : DataFrame) (cols : list string)
  (d : dict cell) (lg : logger) :
  rows (dropna df) <> [] -> incl cols (columns df) ->
  for_each cols (aggregate_column (dropna df)) (d, lg)
  = (Ok tt, (fold_left (fill_step df) cols d, lg)).
Proof.
  intros Hrows. revert d; induction cols as [|c cols IH]; intros d Hincl; simpl.
  - reflexivity.
  - unfold bindM. rewrite aggregate_column_eval; trivial.
    + apply IH. intros x Hx. apply Hincl. now right.
    + apply Hincl. now left.
Qed.

Lemma fill_get (df : DataFrame) (cols : list string) (d : dict cell) (col : string) :
  dict_get (fold_left (fill_step df) cols d) col
  = if (existsb (String.eqb col) cols && negb (is_excluded col))%bool
    then Some (expected df col)
    else dict_get d col.
Proof.
  revert d; induction cols as [|c cols IH]; intros d; simpl; [reflexivity|].
  rewrite IH. unfold fill_step.
  destruct (is_excluded col) eqn:Ecol; simpl; rewrite ?andb_false_r, ?andb_true_r.
  - destruct (is_excluded c) eqn:Ec; [reflexivity|]. rewrite dict_get_set.
    destruct (String.eqb_spec c col) as [->|]; [congruence|reflexivity].
  - destruct (existsb (String.eqb col) cols); [now rewrite orb_true_r|].
    rewrite orb_false_r.
    destruct (String.eqb_spec col c) as [<-|Hne].
    + rewrite Ecol, dict_get_set, String.eqb_refl. reflexivity.
    + destruct (is_excluded c); [reflexivity|]. rewrite dict_get_set.
      destruct (String.eqb_spec c col); [congruence|reflexivity].
Qed.


Lemma get_cpu_details_eval (self : t) (returncode : Z) (df : DataFrame) (lg : logger) :
  rows (dropna df) <> [] ->
  exists warn,
    (warn = [] \/ exists msg, warn = [LogRecord WARNING msg])
    /\ get_cpu_details self returncode (Ok df) lg
       = (Ok (fold_left (fill_step df) (columns df) []), lg ++ warn).
Proof.
  intros Hrows.
  destruct (@log_values_eval cell self returncode) as (warn & Hwarn & Hlog).
  exists warn. split; [exact Hwarn|].
  unfold get_cpu_details, returning_dict, bindM, try_except, lift.
  rewrite Hlog. simpl columns.
  rewrite for_each_eval; [reflexivity|exact Hrows|apply incl_refl].
Qed.

(** C3 (amended). When at least one row is left after the rows with missing
    values are dropped, the method returns a dictionary whose keys are the
    columns other than "System Time", "Elapsed Time (sec)" and "RDTSC";
    a column whose name contains "Cumulative" is mapped to its value in the
    last remaining row, any other column to the sum of its values over the
    remaining rows divided by their number. *)
Theorem aggregation_policy
  (self : t) (returncode : Z) (df : DataFrame) (lg : logger) :
  rows (dropna df) <> [] ->
  exists cpu_details lg',
    get_cpu_details self returncode (Ok df) lg = (Ok cpu_details, lg')
    /\ (forall col, In col (keys cpu_details)
                    <-> In col (columns df) /\ ~ In col excluded)
    /\ forall col, In col (columns df) -> ~ In col excluded ->
         exists j qs,
           position col (columns df) = Some j
           /\ map (fun r => at_ r j) (rows (dropna df)) = map Num qs
           /\ qs <> []
           /\ dict_get cpu_details col
              = Some (Num (if contains "Cumulative" col
                           then last qs 0%Q
                           else (sum qs / inject_Z (Z.of_nat (List.length qs)))%Q)).
Proof.
  intros Hrows.
  destruct (get_cpu_details_eval self returncode df lg Hrows) as (warn & _ & Heval).
  eexists _, _. split; [exact Heval|]. split.
  - intros col. rewrite in_keys_get, fill_get. simpl dict_get.
    rewrite <- is_excluded_In.
    destruct (existsb (String.eqb col) (columns df)) eqn:Ex; simpl.
    + apply existsb_exists in Ex. destruct Ex as (x & Hx & E).
      apply String.eqb_eq in E. subst x.
      destruct (is_excluded col); simpl; split.
      * intros H; now contradiction H.
      * intros [_ H]; now contradiction H.
      * intros _. split; [exact Hx|discriminate].
      * discriminate.
    + split; [congruence|]. intros [Hin _]. exfalso.
      assert (existsb (String.eqb col) (columns df) = true); [|congruence].
      apply existsb_exists. exists col. split; [exact Hin|apply String.eqb_refl].
  - intros col Hin Hex.
    destruct (position_defined col (columns df) Hin) as [j Hj].
    destruct (position_Some _ _ _ Hj) as [Hlt _].
    exists j, (kept_numbers df j). split; [exact Hj|]. split; [|split].
    + now apply dropna_column.
    + unfold kept_numbers. destruct (rows (dropna df)); [congruence|discriminate].
    + rewrite fill_get.
      assert (Hc : existsb (String.eqb col) (columns df) = true).
      { apply existsb_exists. exists col. split; [exact Hin|apply String.eqb_refl]. }
      assert (He : is_excluded col = false).
      { destruct (is_excluded col) eqn:E; [|reflexivity].
        apply is_excluded_In in E. contradiction. }
      rewrite Hc, He. simpl. unfold expected, aggregate. rewrite Hj. reflexivity.
Qed.

(** C6. When [pd.read_csv] raises, the method returns the empty dictionary
    and does not raise; the logger receives one INFO record that carries
    the exception, after the warning of [_log_values] if there was one. *)
Theorem parse_failure_is_swallowed
  (self : t) (returncode : Z) (e : exception) (lg : logger) :
  exists warn,
    (warn = [] \/ exists msg, warn = [LogRecord WARNING msg])
    /\ get_cpu_details self returncode (Raise e) lg
       = (Ok [], lg ++ warn ++ [LogRecord INFO (msg_unreadable self e)]).
Proof.
  destruct (@log_values_eval cell self returncode) as (warn & Hwarn & Hlog).
  exists warn. split; [exact Hwarn|].
  unfold get_cpu_details, returning_dict, bindM, try_except, lift.
  rewrite Hlog. unfold logf. simpl. now rewrite app_assoc.
Qed.

End IntelPowerGadgetFacts.

(* ================================================================== *)
(** * Facts about the RAPL backend *)
(* ================================================================== *)

Module IntelRAPLFacts.
Import Py IntelPowerGadgetFacts IntelRAPL.

Lemma relabel_nth (names : list string) (i k : nat) (n : string) :
  nth_error names k = Some n ->
  nth_error (relabel i names) k = Some (label (i + packages_before names k) n).
Proof.
  revert i k; induction names as [|n0 names IH]; intros i [|k]; simpl; try discriminate.
  - intros [= ->]. unfold packages_before. simpl. now rewrite Nat.add_0_r.
  - intros Hk. rewrite (IH _ _ Hk). unfold packages_before. simpl.
    destruct (is_package n0); simpl; do 2 f_equal; lia.
Qed.

Section Discovery.

Variable reading : Type.
Variable reading0 : reading.

Local Abbreviation file_of dir :=
  (fun file n => {| name := n;
                    path := path_join3 dir file "energy_uj";
                    measured := reading0 |}).

(** The loop appends one file per entry, in order, labelled from [i]. *)
Lemma fetch_loop_spec (fs : filesystem) (dir : string) (files : list string)
  (i : nat) (acc out : list (RAPLFile reading)) :
  fetch_loop reading0 fs dir files i acc = Ok out ->
  exists names,
    Forall2 (declared fs dir) files names
    /\ out = acc ++ map (fun p => file_of dir (fst p) (snd p))
                       (combine files (relabel i names)).
Proof.
  revert i acc; induction files as [|file files IH]; intros i acc; simpl.
  - intros [= <-]. exists []. split; [constructor|]. now rewrite app_nil_r.
  - destruct (read fs (path_join3 dir file "name")) as [content|e] eqn:Er;
      simpl; [|discriminate].
    destruct (contains "package" (strip content)) eqn:Ep; intros H;
      destruct (IH _ _ H) as (names & Hall & ->);
      exists (strip content :: names);
      (split; [constructor; [now exists content|exact Hall]|]);
      simpl; unfold label, is_package; rewrite Ep, <- app_assoc; reflexivity.
Qed.

Lemma fetch_files (fs : filesystem) (self self' : t reading) :
  _rapl_files self = [] ->
  _fetch_rapl_files reading0 fs self = Ok self' ->
  exists entries names,
    listdir fs (_lin_rapl_dir self) = Ok entries
    /\ Forall2 (declared fs (_lin_rapl_dir self))
               (filter (fun x => contains ":" x) entries) names
    /\ _rapl_files self'
       = map (fun p => file_of (_lin_rapl_dir self) (fst p) (snd p))
             (combine (filter (fun x => contains ":" x) entries) (relabel 0 names))
    /\ _lin_rapl_dir self' = _lin_rapl_dir self
    /\ _delay self' = _delay self.
Proof.
  unfold _fetch_rapl_files. intros Hnil.
  destruct (listdir fs (_lin_rapl_dir self)) as [entries|] eqn:El; simpl; [|discriminate].
  destruct (fetch_loop _ _ _ _ _ _) as [out|] eqn:Ef; simpl; [|discriminate].
  intros [= <-]. apply fetch_loop_spec in Ef. destruct Ef as (names & Hall & ->).
  exists entries, names. rewrite Hnil. simpl. repeat split; trivial.
Qed.

Lemma relabel_length (names : list string) (i : nat) :
  List.length (relabel i names) = List.length names.
Proof. revert i; induction names; intros i; simpl; [|rewrite IHnames]; reflexivity. Qed.

End Discovery.

Lemma nth_error_combine {A B} (xs : list A) (ys : list B) (k : nat) (x : A) (y : B) :
  nth_error xs k = Some x -> nth_error ys k = Some y ->
  nth_error (combine xs ys) k = Some (x, y).
Proof.
  revert ys k; induction xs as [|x0 xs IH]; intros [|y0 ys] [|k]; simpl;
    try discriminate.
  - now intros [= ->] [= ->].
  - apply IH.
Qed.

Lemma keys_set_new {V} (d : dict V) (k : string) (v : V) :
  ~ In k (keys d) -> keys (dict_set d k v) = keys d ++ [k].
Proof.
  unfold keys. induction d as [|[k0 v0] d IH]; simpl; intros Hnotin; [reflexivity|].
  destruct (String.eqb_spec k0 k) as [->|Hne]; [tauto|].
  simpl. rewrite IH; [reflexivity|tauto].
Qed.

Section Sampling.

Variable reading : Type.
Variable reading0 : reading.
Variable power : Type.
Variable start : string -> reading -> result reading.
Variable end_ : Q -> string -> reading -> result reading.
Variable power_measurement : reading -> power.

Local Abbreviation store :=
  (fun (d : dict power) (f : RAPLFile reading) =>
     dict_set d (name f) (power_measurement (measured f))).

Lemma start_keeps_names (files started : list (RAPLFile reading)) :
  map_result (RAPLFile_start start) files = Ok started ->
  map name started = map name files.
Proof.
  intros H. apply PyFacts.map_result_Forall2 in H.
  induction H as [|f g files started Hfg _ IH]; simpl; [reflexivity|].
  rewrite IH. f_equal. unfold RAPLFile_start in Hfg.
  destruct (start (path f) (measured f)); simpl in Hfg; [|discriminate].
  now injection Hfg as <-.
Qed.

Lemma end_keeps_names (delay : Q) (files ended : list (RAPLFile reading)) :
  map_result (RAPLFile_end end_ delay) files = Ok ended ->
  map name ended = map name files.
Proof.
  intros H. apply PyFacts.map_result_Forall2 in H.
  induction H as [|f g files ended Hfg _ IH]; simpl; [reflexivity|].
  rewrite IH. f_equal. unfold RAPLFile_end in Hfg.
  destruct (end_ delay (path f) (measured f)); simpl in Hfg; [|discriminate].
  now injection Hfg as <-.
Qed.

Lemma store_eval (files : list (RAPLFile reading)) (d : dict power) (lg : logger) :
  for_each files
    (fun rapl_file =>
       setitem (name rapl_file) (power_measurement (measured rapl_file))) (d, lg)
  = (Ok tt, (fold_left store files d, lg)).
Proof.
  revert d; induction files as [|f files IH]; intros d; simpl; [reflexivity|].
  unfold bindM, setitem. simpl. apply IH.
Qed.

Lemma keys_store (files : list (RAPLFile reading)) (d : dict power) :
  NoDup (keys d ++ map name files) ->
  keys (fold_left store files d) = keys d ++ map name files.
Proof.
  revert d; induction files as [|f files IH]; intros d; simpl.
  - now rewrite app_nil_r.
  - intros Hnd. assert (Hnew : ~ In (name f) (keys d)).
    { intros Hin. apply NoDup_remove_2 in Hnd. apply Hnd, in_or_app. now left. }
    rewrite IH; rewrite (keys_set_new d _ _ Hnew), <- app_assoc; [reflexivity|exact Hnd].
Qed.

(** A sampling cycle in which every read succeeds. *)
Lemma sample_ok (self : t reading) (lg : logger)
  (started ended : list (RAPLFile reading)) :
  map_result (RAPLFile_start start) (_rapl_files self) = Ok started ->
  map_result (RAPLFile_end end_ (_delay self)) started = Ok ended ->
  get_cpu_details start end_ power_measurement self lg
  = (Ok (fold_left store ended []), lg)
  /\ map name ended = map name (_rapl_files self).
Proof.
  intros Hs He. split.
  - unfold get_cpu_details, returning_dict, try_except, bindM, lift.
    rewrite Hs, He, store_eval. reflexivity.
  - rewrite (end_keeps_names _ _ _ He). now apply start_keeps_names.
Qed.

Local Abbreviation kept entries := (filter (fun x => contains ":" x) entries).

(** C4. Discovery keeps the entries of the root whose identifier contains
    ":" and makes one counter per kept entry, in enumeration order; a
    domain whose declared name contains "package" is labelled
    "Processor Power_<i>(Watt)", [i] being the number of package domains
    enumerated before it, and any other keeps its declared name. With the
    declared names "package-0", "package-1" and "dram" the counters are
    named "Processor Power_0(Watt)", "Processor Power_1(Watt)" and "dram",
    and a sampling cycle whose reads succeed returns exactly these keys,
    in this order. *)
Theorem rapl_domain_labels (fs : filesystem) (self self' : t reading) :
  _rapl_files self = [] ->
  _fetch_rapl_files reading0 fs self = Ok self' ->
  exists entries names,
    listdir fs (_lin_rapl_dir self) = Ok entries
    /\ (forall x, In x (kept entries) <-> In x entries /\ contains ":" x = true)
    /\ Forall2 (declared fs (_lin_rapl_dir self)) (kept entries) names
    /\ List.length (_rapl_files self') = List.length (kept entries)
    /\ (forall k file n,
          nth_error (kept entries) k = Some file ->
          nth_error names k = Some n ->
          nth_error (_rapl_files self') k
          = Some {| name := if contains "package" n
                            then ("Processor Power_"
                                    ++ str_nat (packages_before names k)
                                    ++ "(Watt)")%string
                            else n;
                    path := path_join3 (_lin_rapl_dir self) file "energy_uj";
                    measured := reading0 |})
    /\ (names = ["package-0"; "package-1"; "dram"]%string ->
        map name (_rapl_files self')
        = ["Processor Power_0(Watt)"; "Processor Power_1(Watt)"; "dram"]%string
        /\ forall lg started ended,
             map_result (RAPLFile_start start) (_rapl_files self') = Ok started ->
             map_result (RAPLFile_end end_ (_delay self')) started = Ok ended ->
             exists cpu_details,
               get_cpu_details start end_ power_measurement self' lg
               = (Ok cpu_details, lg)
               /\ keys cpu_details
                  = ["Processor Power_0(Watt)"; "Processor Power_1(Watt)";
                     "dram"]%string).
Proof.
  intros Hnil Hfetch.
  destruct (fetch_files _ reading0 fs self self' Hnil Hfetch)
    as (entries & names & Hl & Hall & Hfiles & _ & _).
  exists entries, names. split; [exact Hl|]. split; [intros x; apply filter_In|].
  split; [exact Hall|].
  pose proof (Forall2_length Hall) as Hlen.
  split; [|split].
  - rewrite Hfiles, length_map, length_combine, relabel_length. lia.
  - intros k file n Hk Hn. rewrite Hfiles, nth_error_map.
    rewrite (nth_error_combine _ _ _ _ _ Hk (relabel_nth names 0 k n Hn)).
    reflexivity.
  - intros ->. simpl in Hlen.
    destruct (kept entries) as [|d0 [|d1 [|d2 [|]]]]; try discriminate.
    assert (Hnames : map name (_rapl_files self')
                     = ["Processor Power_0(Watt)"; "Processor Power_1(Watt)";
                        "dram"]%string) by (rewrite Hfiles; reflexivity).
    split; [exact Hnames|].
    intros lg started ended Hs He.
    destruct (sample_ok self' lg started ended Hs He) as [Hrun Hkeep].
    eexists. split; [exact Hrun|].
    rewrite keys_store; rewrite Hkeep, Hnames; [reflexivity|].
    simpl. repeat constructor; simpl; intuition discriminate.
Qed.

(** An exception of the discovery loop is that of reading the [name] file
    of one of its entries. *)
Lemma fetch_loop_raise (fs : filesystem) (dir : string) (files : list string)
  (i : nat) (acc : list (RAPLFile reading)) (e : exception) :
  fetch_loop reading0 fs dir files i acc = Raise e ->
  exists file, In file files /\ read fs (path_join3 dir file "name") = Raise e.
Proof.
  revert i acc; induction files as [|file files IH]; intros i acc; simpl;
    [discriminate|].
  destruct (read fs (path_join3 dir file "name")) as [content|e'] eqn:Er; simpl.
  - destruct (contains "package" (strip content)); intros H;
      destruct (IH _ _ H) as (f & Hf & Hr); exists f; (split; [now right|exact Hr]).
  - intros [= ->]. exists file. split; [now left|exact Er].
Qed.

(** C5 (amended). Construction raises [SystemError] when the platform is
    not Linux, whatever the file system holds; on Linux it raises
    [FileNotFoundError] when the root path does not exist; and only when
    both checks pass does it go on to discover the domains, whose outcome
    is then its own: an object, or the exception that listing the root or
    reading the [name] file of a kept entry raised. *)
Theorem construction_errors (fs : filesystem) (platform rapl_dir : string) :
  (startswith platform "lin" = false ->
   forall fs' rapl_dir',
     __init__ reading0 fs' platform rapl_dir'
     = Raise (SystemError "Platform not supported by Intel RAPL Interface"))
  /\ (startswith platform "lin" = true ->
      path_exists fs rapl_dir = false ->
      __init__ reading0 fs platform rapl_dir
      = Raise (FileNotFoundError
                 ("Intel RAPL files not found at " ++ rapl_dir ++ " on " ++ platform)))
  /\ (startswith platform "lin" = true ->
      path_exists fs rapl_dir = true ->
      __init__ reading0 fs platform rapl_dir
      = _fetch_rapl_files reading0 fs
          {| _lin_rapl_dir := rapl_dir; _system := platform;
             _delay := 1 # 100; _rapl_files := [] |})
  /\ (startswith platform "lin" = true ->
      path_exists fs rapl_dir = true ->
      forall e,
        __init__ reading0 fs platform rapl_dir = Raise e ->
        listdir fs rapl_dir = Raise e
        \/ exists entries file,
             listdir fs rapl_dir = Ok entries
             /\ In file entries
             /\ contains ":" file = true
             /\ read fs (path_join3 rapl_dir file "name") = Raise e).
Proof.
  unfold __init__, _setup_rapl, _is_platform_supported; simpl.
  split; [|split; [|split]].
  - intros -> fs' rapl_dir'. reflexivity.
  - intros -> ->. reflexivity.
  - intros -> ->. reflexivity.
  - intros -> -> e. unfold _fetch_rapl_files. simpl.
    destruct (listdir fs rapl_dir) as [entries|e'] eqn:El; simpl.
    + destruct (fetch_loop reading0 fs rapl_dir
                  (filter (fun x => contains ":" x) entries) 0 [])
        as [out|e''] eqn:Ef; simpl; [discriminate|].
      intros [= ->]. right.
      destruct (fetch_loop_raise _ _ _ _ _ _ Ef) as (file & Hin & Hr).
      apply filter_In in Hin. destruct Hin as [Hin Hc].
      exists entries, file. repeat split; assumption.
    + intros [= ->]. now left.
Qed.

End Sampling.

End IntelRAPLFacts.

(* ================================================================== *)
(** * The theorems at the concrete inputs *)
(* ================================================================== *)

Module Runs.
Import Py Sample.
Local Open Scope Z_scope.

Lemma sample_ratio_le_100 (a b : string) : ratio a b <= 100.
Proof. unfold ratio. destruct (String.eqb a b); lia. Qed.

Lemma sample_ratio_same (a : string) : ratio a a = 100.
Proof. unfold ratio. now rewrite String.eqb_refl. Qed.

(** The end-to-end scenario of the resolver: the detected string against a
    table that holds it with a TDP of 45. *)
Example resolve_i7_9750H :
  TDP._main lower ratio token_set_ratio
    [("brand_raw", "Intel(R) Core(TM) i7-9750H CPU @ 2.60GHz")]%string
    cpu_power_df []
  = (Ok ("Intel(R) Core(TM) i7-9750H CPU @ 2.60GHz"%string, Some 45),
     [LogRecord DEBUG
        "CPU : We detect a Intel(R) Core(TM) i7-9750H CPU @ 2.60GHz with a TDP of 45 W"]).
Proof. reflexivity. Qed.

(** The aggregation scenario: 5 for the cumulative column and 60/3 for the
    other one, the clock column being left out. *)
Example aggregate_power_log :
  IntelPowerGadget.get_cpu_details gadget 0 (Ok power_log) []
  = (Ok [("Cumulative Processor Energy_0(Joules)"%string, IntelPowerGadget.Num 5);
         ("Processor Power_0(Watt)"%string, IntelPowerGadget.Num (60 # 3))],
     [])
  /\ (60 # 3 == 20)%Q.
Proof. split; reflexivity. Qed.

(** The discovery scenario. *)
Example discover_sysfs :
  IntelRAPL.__init__ 0%Q sysfs "linux" rapl_dir = Ok rapl_discovered.
Proof. reflexivity. Qed.

(** C1 at the sample table: the detected string in upper case. *)
Lemma direct_match_priority_witness :
  In "Intel(R) Core(TM) i7-9750H CPU @ 2.60GHz"%string (TDP.names cpu_power_df)
  /\ lower "INTEL(R) CORE(TM) I7-9750H CPU @ 2.60GHZ"
     = lower "Intel(R) Core(TM) i7-9750H CPU @ 2.60GHz"
  /\ exists (idx : nat) (cpu : string),
       nth_error (TDP.names cpu_power_df) idx = Some cpu
       /\ max (TDP._get_direct_matches lower ratio
                 "INTEL(R) CORE(TM) I7-9750H CPU @ 2.60GHZ" cpu_power_df)
          = Ok (ratio (lower "INTEL(R) CORE(TM) I7-9750H CPU @ 2.60GHZ") (lower cpu))
       /\ TDP.THRESHOLD_DIRECT
          <= ratio (lower "INTEL(R) CORE(TM) I7-9750H CPU @ 2.60GHZ") (lower cpu)
       /\ (forall j n, (j < idx)%nat -> nth_error (TDP.names cpu_power_df) j = Some n ->
              ratio (lower "INTEL(R) CORE(TM) I7-9750H CPU @ 2.60GHZ") (lower n)
              <> ratio (lower "INTEL(R) CORE(TM) I7-9750H CPU @ 2.60GHZ") (lower cpu))
       /\ forall (tsr : string -> string -> Z) (greedy : bool),
            TDP._get_matching_cpu lower ratio tsr
              "INTEL(R) CORE(TM) I7-9750H CPU @ 2.60GHZ" cpu_power_df greedy
            = Ok (Some cpu).
Proof.
  split; [simpl; now left|]. split; [reflexivity|].
  apply (TDPFacts.direct_match_priority lower ratio
           sample_ratio_le_100 sample_ratio_same
           "INTEL(R) CORE(TM) I7-9750H CPU @ 2.60GHZ" cpu_power_df
           "Intel(R) Core(TM) i7-9750H CPU @ 2.60GHz").
  - simpl; now left.
  - reflexivity.
Defined.

Local Abbreviation tied := "Intel Core(TM) i7-9750H"%string.

Lemma tied_direct : max (TDP._get_direct_matches lower ratio tied cpu_power_df) = Ok 0.
Proof. reflexivity. Qed.

Lemma tied_token :
  max (TDP._get_token_set_matches token_set_ratio tied cpu_power_df) = Ok 100.
Proof. reflexivity. Qed.

Lemma tied_attains_1 : TDP.attains token_set_ratio tied cpu_power_df 100 1.
Proof. exists "Core(TM) i7"%string. split; reflexivity. Qed.

Lemma tied_attains_2 : TDP.attains token_set_ratio tied cpu_power_df 100 2.
Proof. exists "i7-9750H"%string. split; reflexivity. Qed.

(** C2 at the sample table: a detected string that contains two of the
    reference names, with [greedy] on. *)
Lemma token_set_stage_policy_witness :
  max (TDP._get_direct_matches lower ratio tied cpu_power_df) = Ok 0
  /\ 0 < TDP.THRESHOLD_DIRECT
  /\ exists max_token,
       max (TDP._get_token_set_matches token_set_ratio tied cpu_power_df) = Ok max_token
       /\ (max_token < TDP.THRESHOLD_TOKEN_SET ->
           TDP._get_matching_cpu lower ratio token_set_ratio tied cpu_power_df true
           = Ok None)
       /\ (TDP.THRESHOLD_TOKEN_SET <= max_token ->
           forall i cpu,
             TDP.attains token_set_ratio tied cpu_power_df max_token i ->
             (forall j, TDP.attains token_set_ratio tied cpu_power_df max_token j -> j = i) ->
             nth_error (TDP.names cpu_power_df) i = Some cpu ->
             TDP._get_matching_cpu lower ratio token_set_ratio tied cpu_power_df true
             = Ok (Some cpu))
       /\ (TDP.THRESHOLD_TOKEN_SET <= max_token ->
           forall i j,
             i <> j ->
             TDP.attains token_set_ratio tied cpu_power_df max_token i ->
             TDP.attains token_set_ratio tied cpu_power_df max_token j ->
             (true = false ->
              TDP._get_matching_cpu lower ratio token_set_ratio tied cpu_power_df true
              = Ok None)
             /\ (true = true ->
                 exists k cpu,
                   TDP.attains token_set_ratio tied cpu_power_df max_token k
                   /\ (forall j',
                          TDP.attains token_set_ratio tied cpu_power_df max_token j' ->
                          (k <= j')%nat)
                   /\ nth_error (TDP.names cpu_power_df) k = Some cpu
                   /\ TDP._get_matching_cpu lower ratio token_set_ratio
                        tied cpu_power_df true
                      = Ok (Some cpu))).
Proof.
  split; [reflexivity|]. split; [reflexivity|].
  apply (TDPFacts.token_set_stage_policy lower ratio token_set_ratio
           tied cpu_power_df true 0); reflexivity.
Defined.

(** C7 at the sample table: two [cpuinfo] dictionaries with the same brand
    string and two different loggers. *)
Lemma resolution_deterministic_witness :
  TDP._detect_cpu_model [("brand_raw", "Pentium")]%string
  = TDP._detect_cpu_model [("arch", "X86_64"); ("brand_raw", "Pentium")]%string
  /\ fst (TDP._main lower ratio token_set_ratio
            [("brand_raw", "Pentium")]%string cpu_power_df [])
     = fst (TDP._main lower ratio token_set_ratio
              [("arch", "X86_64"); ("brand_raw", "Pentium")]%string cpu_power_df
              [LogRecord INFO "started"]).
Proof.
  split; [reflexivity|].
  apply (TDPFacts.resolution_deterministic lower ratio token_set_ratio). reflexivity.
Defined.

(** C8 at the sample table: the tie between rows 1 and 2. *)
Lemma registry_is_never_greedy_witness :
  max (TDP._get_direct_matches lower ratio tied cpu_power_df) = Ok 0
  /\ 0 < TDP.THRESHOLD_DIRECT
  /\ max (TDP._get_token_set_matches token_set_ratio tied cpu_power_df) = Ok 100
  /\ TDP.THRESHOLD_TOKEN_SET <= 100
  /\ 1%nat <> 2%nat
  /\ TDP.attains token_set_ratio tied cpu_power_df 100 1
  /\ TDP.attains token_set_ratio tied cpu_power_df 100 2
  /\ TDP._get_matching_cpu lower ratio token_set_ratio tied cpu_power_df false = Ok None
  /\ TDP._get_cpu_power_from_registry lower ratio token_set_ratio cpu_power_df tied
     = Ok None
  /\ (exists cpu,
        TDP._get_matching_cpu lower ratio token_set_ratio tied cpu_power_df true
        = Ok (Some cpu))
  /\ forall cpu_info lg,
       TDP._detect_cpu_model cpu_info = Some tied ->
       truthy_str tied = true ->
       TDP._main lower ratio token_set_ratio cpu_info cpu_power_df lg
       = (Ok (tied, None), lg ++ [LogRecord WARNING (TDP.msg_unknown tied)]).
Proof.
  split; [exact tied_direct|]. split; [reflexivity|]. split; [exact tied_token|].
  split; [discriminate|]. split; [discriminate|].
  split; [exact tied_attains_1|]. split; [exact tied_attains_2|].
  apply (TDPFacts.registry_is_never_greedy lower ratio token_set_ratio
           tied cpu_power_df 0 100 1 2).
  - exact tied_direct.
  - reflexivity.
  - exact tied_token.
  - discriminate.
  - discriminate.
  - exact tied_attains_1.
  - exact tied_attains_2.
Defined.

(** C9 at the sample table: the row "Pentium" carries a TDP of 0. *)
Lemma zero_tdp_is_unknown_witness :
  TDP._detect_cpu_model [("brand_raw", "pentium")]%string = Some "pentium"%string
  /\ truthy_str "pentium" = true
  /\ TDP._get_matching_cpu lower ratio token_set_ratio "pentium" cpu_power_df false
     = Ok (Some "Pentium"%string)
  /\ truthy_str "Pentium" = true
  /\ TDP._get_cpu_constant_power "Pentium" cpu_power_df = Ok 0
  /\ TDP._main lower ratio token_set_ratio
       [("brand_raw", "pentium")]%string cpu_power_df []
     = (Ok ("pentium"%string, None),
        [] ++ [LogRecord WARNING (TDP.msg_unknown "pentium")]).
Proof.
  repeat (split; [reflexivity|]).
  apply (proj1 (TDPFacts.zero_tdp_is_unknown lower ratio token_set_ratio
                  [("brand_raw", "pentium")]%string cpu_power_df [])
           "pentium"%string "Pentium"%string); reflexivity.
Defined.

(** C10 at the sample table. *)
Lemma matched_name_has_power_witness :
  TDP._get_matching_cpu lower ratio token_set_ratio tied cpu_power_df true
  = Ok (Some "Core(TM) i7"%string)
  /\ In "Core(TM) i7"%string (TDP.names cpu_power_df)
  /\ exists before r after,
       cpu_power_df = before ++ r :: after
       /\ TDP.Name r = "Core(TM) i7"%string
       /\ (forall r', In r' before -> TDP.Name r' <> "Core(TM) i7"%string)
       /\ TDP._get_cpu_constant_power "Core(TM) i7" cpu_power_df = Ok (TDP.TDP r).
Proof.
  split; [reflexivity|].
  apply (TDPFacts.matched_name_has_power lower ratio token_set_ratio
           tied cpu_power_df true "Core(TM) i7"). reflexivity.
Defined.

(** C3 (amended) at the sample log. *)
Lemma aggregation_policy_witness :
  IntelPowerGadget.rows (IntelPowerGadget.dropna power_log) <> []
  /\ exists cpu_details lg',
       IntelPowerGadget.get_cpu_details gadget 0 (Ok power_log) []
       = (Ok cpu_details, lg')
       /\ (forall col,
             In col (keys cpu_details)
             <-> In col (IntelPowerGadget.columns power_log)
                 /\ ~ In col IntelPowerGadget.excluded)
       /\ forall col,
            In col (IntelPowerGadget.columns power_log) ->
            ~ In col IntelPowerGadget.excluded ->
            exists j qs,
              IntelPowerGadget.position col (IntelPowerGadget.columns power_log) = Some j
              /\ map (fun r => IntelPowerGadget.at_ r j)
                     (IntelPowerGadget.rows (IntelPowerGadget.dropna power_log))
                 = map IntelPowerGadget.Num qs
              /\ qs <> []
              /\ dict_get cpu_details col
                 = Some (IntelPowerGadget.Num
                           (if contains "Cumulative" col
                            then last qs 0%Q
                            else (IntelPowerGadget.sum qs
                                  / inject_Z (Z.of_nat (List.length qs)))%Q)).
Proof.
  split; [discriminate|].
  apply (IntelPowerGadgetFacts.aggregation_policy gadget 0 power_log []).
  discriminate.
Defined.

(** C3 as stated fails when no row is left: the only row of the log misses
    a value and is dropped, reading the last value of the cumulative column
    raises, and the method returns the empty dictionary, in which neither
    column is mapped. *)
Lemma aggregation_needs_a_row :
  IntelPowerGadget.rows (IntelPowerGadget.dropna incomplete_log) = []
  /\ In "Processor Power_0(Watt)"%string (IntelPowerGadget.columns incomplete_log)
  /\ ~ In "Processor Power_0(Watt)"%string IntelPowerGadget.excluded
  /\ fst (IntelPowerGadget.get_cpu_details gadget 0 (Ok incomplete_log) []) = Ok []
  /\ ~ (forall col,
          In col (IntelPowerGadget.columns incomplete_log) ->
          ~ In col IntelPowerGadget.excluded ->
          exists v,
            match fst (IntelPowerGadget.get_cpu_details gadget 0 (Ok incomplete_log) [])
            with
            | Ok cpu_details => dict_get cpu_details col = Some v
            | Raise _ => False
            end).
Proof.
  assert (Hnot : ~ In "Processor Power_0(Watt)"%string IntelPowerGadget.excluded).
  { simpl. intuition discriminate. }
  split; [reflexivity|]. split; [simpl; tauto|]. split; [exact Hnot|].
  split; [reflexivity|].
  intros H. destruct (H "Processor Power_0(Watt)"%string) as [v Hv].
  - simpl; tauto.
  - exact Hnot.
  - simpl in Hv. discriminate.
Qed.

(** C4 at the sample file system. *)
Lemma rapl_domain_labels_witness :
  IntelRAPL._rapl_files rapl_self = []
  /\ IntelRAPL._fetch_rapl_files 0%Q sysfs rapl_self = Ok rapl_discovered
  /\ exists entries names,
       IntelRAPL.listdir sysfs (IntelRAPL._lin_rapl_dir rapl_self) = Ok entries
       /\ (forall x, In x (filter (fun x => contains ":" x) entries)
                     <-> In x entries /\ contains ":" x = true)
       /\ Forall2 (IntelRAPL.declared sysfs (IntelRAPL._lin_rapl_dir rapl_self))
                  (filter (fun x => contains ":" x) entries) names
       /\ List.length (IntelRAPL._rapl_files rapl_discovered)
          = List.length (filter (fun x => contains ":" x) entries)
       /\ (forall k file n,
             nth_error (filter (fun x => contains ":" x) entries) k = Some file ->
             nth_error names k = Some n ->
             nth_error (IntelRAPL._rapl_files rapl_discovered) k
             = Some {| IntelRAPL.name :=
                         if contains "package" n
                         then ("Processor Power_"
                                 ++ str_nat (IntelRAPL.packages_before names k)
                                 ++ "(Watt)")%string
                         else n;
                       IntelRAPL.path :=
                         path_join3 (IntelRAPL._lin_rapl_dir rapl_self) file "energy_uj";
                       IntelRAPL.measured := 0%Q |})
       /\ (names = ["package-0"; "package-1"; "dram"]%string ->
           map IntelRAPL.name (IntelRAPL._rapl_files rapl_discovered)
           = ["Processor Power_0(Watt)"; "Processor Power_1(Watt)"; "dram"]%string
           /\ forall lg started ended,
                map_result (IntelRAPL.RAPLFile_start start)
                  (IntelRAPL._rapl_files rapl_discovered) = Ok started ->
                map_result (IntelRAPL.RAPLFile_end end_ (IntelRAPL._delay rapl_discovered))
                  started = Ok ended ->
                exists cpu_details,
                  IntelRAPL.get_cpu_details start end_ power_measurement
                    rapl_discovered lg
                  = (Ok cpu_details, lg)
                  /\ keys cpu_details
                     = ["Processor Power_0(Watt)"; "Processor Power_1(Watt)";
                        "dram"]%string).
Proof.
  split; [reflexivity|]. split; [reflexivity|].
  apply (IntelRAPLFacts.rapl_domain_labels Q 0%Q Q start end_ power_measurement
           sysfs rapl_self rapl_discovered); reflexivity.
Defined.

(** C5 on a platform that is not Linux. *)
Lemma construction_errors_witness :
  startswith "darwin" "lin" = false
  /\ IntelRAPL.__init__ 0%Q sysfs "darwin" rapl_dir
     = Raise (SystemError "Platform not supported by Intel RAPL Interface").
Proof.
  split; [reflexivity|].
  apply (proj1 (IntelRAPLFacts.construction_errors Q 0%Q sysfs "darwin" rapl_dir)).
  reflexivity.
Defined.

(** C5 as stated fails when discovery raises: on Linux, with a root path
    that exists but cannot be listed, construction ends with the exception
    of [os.listdir], which is neither of the two errors nor a success. *)
Lemma construction_third_outcome :
  startswith "linux" "lin" = true
  /\ IntelRAPL.path_exists root_is_a_file rapl_dir = true
  /\ IntelRAPL.__init__ 0%Q root_is_a_file "linux" rapl_dir
     = Raise (Exception
                "[Errno 20] Not a directory: '/sys/class/powercap/intel-rapl'")
  /\ (forall msg, IntelRAPL.__init__ 0%Q root_is_a_file "linux" rapl_dir
                  <> Raise (SystemError msg))
  /\ (forall msg, IntelRAPL.__init__ 0%Q root_is_a_file "linux" rapl_dir
                  <> Raise (FileNotFoundError msg))
  /\ (forall self, IntelRAPL.__init__ 0%Q root_is_a_file "linux" rapl_dir
                   <> Ok self).
Proof.
  repeat split; try reflexivity; intros x H; vm_compute in H; discriminate.
Qed.

End Runs.

(* ================================================================== *)
(** * Further facts about the TDP resolver *)
(* ================================================================== *)

Module TDPMore.
Import Py PyFacts TDP TDPFacts.
Local Open Scope Z_scope.

Section Resolver.

Variable lower : string -> string.
Variable ratio : string -> string -> Z.
Variable token_set_ratio : string -> string -> Z.

Local Abbreviation matching := (_get_matching_cpu lower ratio token_set_ratio).
Local Abbreviation registry :=
  (_get_cpu_power_from_registry lower ratio token_set_ratio).
Local Abbreviation main := (_main lower ratio token_set_ratio).

Lemma matching_empty (model : string) (greedy : bool) :
  matching model [] greedy = Raise (ValueError "max() arg is an empty sequence").
Proof. reflexivity. Qed.

Lemma matching_nonempty (model : string) (cpu_df : DataFrame) (greedy : bool) :
  cpu_df <> [] -> exists r, matching model cpu_df greedy = Ok r.
Proof.
  intros Hne. unfold _get_matching_cpu.
  destruct (max_defined (_get_direct_matches lower ratio model cpu_df)) as [md Hd].
  { unfold _get_direct_matches, names. destruct cpu_df; [congruence|discriminate]. }
  destruct (max_defined (_get_token_set_matches token_set_ratio model cpu_df))
    as [mt Ht].
  { unfold _get_token_set_matches, names. destruct cpu_df; [congruence|discriminate]. }
  rewrite Hd, Ht. simpl bind.
  destruct (THRESHOLD_DIRECT <=? md).
  - destruct (max_spec _ _ Hd) as [Hin _].
    destruct (index_first _ _ Hin) as (idx & Hidx & Hnth & _).
    unfold _get_single_direct_match. rewrite Hidx. simpl bind.
    unfold _get_direct_matches in Hnth. rewrite nth_error_map in Hnth.
    unfold name_iloc. destruct (nth_error (names cpu_df) idx); [|discriminate].
    eexists; reflexivity.
  - destruct (mt <? THRESHOLD_TOKEN_SET); [eexists; reflexivity|].
    destruct (get_cpus_defined cpu_df
                (_get_max_idxs (_get_token_set_matches token_set_ratio model cpu_df) mt))
      as (cpus & Hcpus & Hall).
    { intros i Hi. apply In_token_idxs in Hi. destruct Hi as (n & Hn & _). now exists n. }
    rewrite Hcpus. simpl bind.
    destruct (max_spec _ _ Ht) as [Hin _].
    apply In_nth_error in Hin. destruct Hin as [i Hi].
    apply In_max_idxs in Hi.
    destruct cpus as [|c cs].
    + inversion Hall as [E|]. rewrite <- E in Hi. contradiction.
    + simpl. destruct (_ || greedy); eexists; reflexivity.
Qed.

(** X1. The matching procedure raises exactly on an empty table, where
    [max] has nothing to take and raises [ValueError]; on any other table
    it returns, a name or [None], whatever the scores are. *)
Theorem matching_raises_only_on_empty
  (model : string) (cpu_df : DataFrame) (greedy : bool) :
  (cpu_df = [] -> exists msg, matching model cpu_df greedy = Raise (ValueError msg))
  /\ (cpu_df <> [] -> exists r, matching model cpu_df greedy = Ok r).
Proof.
  split; [intros ->; eexists; apply matching_empty|apply matching_nonempty].
Qed.

(** X2. [greedy] only fills in answers: whenever the non-greedy match is a
    name or an exception, the greedy match of the same input is the same. *)
Theorem greedy_extends_non_greedy
  (model : string) (cpu_df : DataFrame) (r : result (option string)) :
  matching model cpu_df false = r ->
  r <> Ok None ->
  matching model cpu_df true = r.
Proof.
  unfold _get_matching_cpu. intros <-.
  destruct (max (_get_direct_matches lower ratio model cpu_df)) as [md|];
    [|reflexivity].
  destruct (max (_get_token_set_matches token_set_ratio model cpu_df)) as [mt|];
    [|reflexivity].
  simpl bind. destruct (THRESHOLD_DIRECT <=? md); [reflexivity|].
  destruct (mt <? THRESHOLD_TOKEN_SET); [reflexivity|].
  destruct (_get_cpus cpu_df _) as [cpus|]; [|reflexivity]. simpl bind.
  rewrite orb_false_r, orb_true_r.
  destruct (truthy_list cpus && (List.length cpus =? 1)%nat)%bool; [reflexivity|].
  intros H. now contradiction H.
Qed.

(** The constant-power lookup finds a row exactly for the names of the
    table. *)
Lemma constant_power_absent (name : string) (cpu_df : DataFrame) :
  ~ In name (names cpu_df) ->
  _get_cpu_constant_power name cpu_df
  = Raise (IndexError "index 0 is out of bounds for axis 0 with size 0").
Proof.
  unfold _get_cpu_constant_power.
  induction cpu_df as [|r df IH]; simpl; [reflexivity|].
  intros Hnot. destruct (String.eqb_spec (Name r) name) as [E|Hne]; [tauto|].
  apply IH. tauto.
Qed.

(** X3. The constant-power lookup returns a value exactly for the names
    that occur in the table, and raises [IndexError] for any other. *)
Theorem constant_power_defined_iff (name : string) (cpu_df : DataFrame) :
  (In name (names cpu_df) <-> exists tdp, _get_cpu_constant_power name cpu_df = Ok tdp)
  /\ (~ In name (names cpu_df) ->
      exists msg, _get_cpu_constant_power name cpu_df = Raise (IndexError msg)).
Proof.
  split; [|intros H; eexists; now apply constant_power_absent]. split.
  - intros Hin. destruct (constant_power_first name cpu_df Hin)
      as (_ & r & _ & _ & _ & _ & H). now exists (TDP r).
  - intros [tdp H].
    destruct (in_dec string_dec name (names cpu_df)) as [Hin|Hnot]; [exact Hin|].
    rewrite (constant_power_absent _ _ Hnot) in H. discriminate.
Qed.

(** The registry answers on every table but the empty one. *)
Lemma registry_nonempty (model : string) (cpu_df : DataFrame) :
  cpu_df <> [] -> exists power, registry cpu_df model = Ok power.
Proof.
  intros Hne. unfold _get_cpu_power_from_registry.
  destruct (matching_nonempty model cpu_df false Hne) as [[cpu|] Hm]; rewrite Hm;
    simpl bind; [|eexists; reflexivity].
  destruct (truthy_str cpu); [|eexists; reflexivity].
  apply matching_in_names in Hm.
  destruct (constant_power_first cpu cpu_df Hm) as (_ & r & _ & _ & _ & _ & ->).
  eexists; reflexivity.
Qed.

(** A TDP the registry answers is that of a row with a non-empty name. *)
Lemma registry_some (model : string) (cpu_df : DataFrame) (p : Z) :
  registry cpu_df model = Ok (Some p) ->
  exists r, In r cpu_df /\ TDP r = p /\ Name r <> ""%string.
Proof.
  unfold _get_cpu_power_from_registry.
  destruct (matching model cpu_df false) as [[cpu|]|] eqn:Hm; simpl bind;
    try discriminate.
  destruct (truthy_str cpu) eqn:Ht; [|discriminate].
  apply matching_in_names in Hm.
  destruct (constant_power_first cpu cpu_df Hm) as (before & r & after & E & Hn & _ & ->).
  simpl. intros [= <-]. exists r. repeat split.
  - rewrite E. apply in_or_app. right; now left.
  - rewrite Hn. unfold truthy_str in Ht. intros ->. discriminate.
Qed.

(** X4. [_main] raises exactly when a model string is detected and the
    table is empty; the exception is the [ValueError] of [max] and nothing
    is logged. On any other table a detected model gives a pair and one
    log record. When nothing is detected the table is not consulted: the
    result is ("Unknown", None) with one warning, on every table. *)
Theorem main_raises_only_on_empty_table
  (cpu_info : cpu_info_t) (cpu_df : DataFrame) (lg : logger) :
  (truthy_opt_str (_detect_cpu_model cpu_info) = true -> cpu_df = [] ->
   exists msg, main cpu_info cpu_df lg = (Raise (ValueError msg), lg))
  /\ (truthy_opt_str (_detect_cpu_model cpu_info) = true -> cpu_df <> [] ->
      exists pair rec, main cpu_info cpu_df lg = (Ok pair, lg ++ [rec]))
  /\ (truthy_opt_str (_detect_cpu_model cpu_info) = false ->
      main cpu_info cpu_df lg
      = (Ok ("Unknown"%string, None), lg ++ [LogRecord WARNING msg_undetected])).
Proof.
  unfold _main. destruct (_detect_cpu_model cpu_info) as [model|]; simpl.
  - destruct (truthy_str model); repeat split; try discriminate.
    + intros _ ->. eexists. reflexivity.
    + intros _ Hne. destruct (registry_nonempty model cpu_df Hne) as [power Hr].
      unfold bindM, lift. rewrite Hr.
      destruct (truthy_opt_int power); eexists _, _; reflexivity.
  - repeat split; discriminate.
Qed.

(** X5. What [_main] reports comes from its inputs: the model is the
    detected string, not the reference name that matched, and a reported
    TDP is the TDP of a row of the table whose name is not empty; the run
    then logs one DEBUG record. *)
Theorem main_reports_table_tdp
  (cpu_info : cpu_info_t) (cpu_df : DataFrame) (lg lg' : logger)
  (model : string) (tdp : Z) :
  main cpu_info cpu_df lg = (Ok (model, Some tdp), lg') ->
  _detect_cpu_model cpu_info = Some model
  /\ (exists r, In r cpu_df /\ TDP r = tdp /\ Name r <> ""%string)
  /\ lg' = lg ++ [LogRecord DEBUG (msg_detected model (Some tdp))].
Proof.
  unfold _main. destruct (_detect_cpu_model cpu_info) as [detected|]; [|discriminate].
  destruct (truthy_str detected); [|discriminate].
  unfold bindM, lift.
  destruct (registry cpu_df detected) as [power|] eqn:Hr; [|discriminate].
  destruct (truthy_opt_int power); [|discriminate].
  simpl. intros [= -> -> <-]. repeat split.
  now apply (registry_some model cpu_df tdp).
Qed.

(** X17. The direct stage does not see the case of the detected string:
    when it matches for one string it matches for every string with the
    same lower-case form, with the same result, whatever [greedy] is. *)
Theorem direct_stage_ignores_case
  (model1 model2 : string) (cpu_df : DataFrame) (greedy1 greedy2 : bool)
  (max_direct : Z) :
  lower model1 = lower model2 ->
  max (_get_direct_matches lower ratio model1 cpu_df) = Ok max_direct ->
  THRESHOLD_DIRECT <= max_direct ->
  matching model1 cpu_df greedy1 = matching model2 cpu_df greedy2.
Proof.
  intros Hlow Hd Hge.
  assert (Hsame : _get_direct_matches lower ratio model2 cpu_df
                  = _get_direct_matches lower ratio model1 cpu_df).
  { unfold _get_direct_matches. now rewrite Hlow. }
  assert (Hne : names cpu_df <> []).
  { intros E. unfold _get_direct_matches in Hd. rewrite E in Hd. discriminate. }
  unfold _get_matching_cpu. rewrite Hsame, Hd. simpl bind.
  destruct (max_defined (_get_token_set_matches token_set_ratio model1 cpu_df))
    as [mt1 ->].
  { unfold _get_token_set_matches. destruct (names cpu_df); [congruence|discriminate]. }
  destruct (max_defined (_get_token_set_matches token_set_ratio model2 cpu_df))
    as [mt2 ->].
  { unfold _get_token_set_matches. destruct (names cpu_df); [congruence|discriminate]. }
  simpl bind. destruct (Z.leb_spec THRESHOLD_DIRECT max_direct); [reflexivity|lia].
Qed.

End Resolver.

(** ** The helpers of the matching procedure *)

Lemma max_idxs_from_sorted (m : Z) (ratios : list Z) (k : nat) :
  StronglySorted lt (max_idxs_from m k ratios).
Proof.
  revert k; induction ratios as [|x ratios IH]; intros k.
  - constructor.
  - rewrite (idxs_from_cons m k x ratios). destruct (Z.eqb x m); [|apply IH].
    constructor; [apply IH|]. apply Forall_forall. intros i Hi.
    apply In_idxs_from in Hi. lia.
Qed.

(** X18. [_get_max_idxs] returns exactly the positions that hold
    [max_ratio], each once and in increasing order; when [max_ratio] is the
    maximum of a non-empty list the result is not empty, so taking its
    first element cannot fail. *)
Theorem max_idxs_spec (ratios : list Z) (max_ratio : Z) :
  (forall i, In i (_get_max_idxs ratios max_ratio)
             <-> nth_error ratios i = Some max_ratio)
  /\ StronglySorted lt (_get_max_idxs ratios max_ratio)
  /\ (max ratios = Ok max_ratio -> _get_max_idxs ratios max_ratio <> []).
Proof.
  split; [intros i; apply In_max_idxs|]. split.
  - apply (max_idxs_from_sorted max_ratio ratios 0).
  - intros Hmax E. destruct (max_spec _ _ Hmax) as [Hin _].
    apply In_nth_error in Hin. destruct Hin as [i Hi].
    apply In_max_idxs in Hi. rewrite E in Hi. contradiction.
Qed.

Lemma index_absent (l : list Z) (x : Z) (k : nat) :
  ~ In x l -> exists msg, index_from l x k = Raise (ValueError msg).
Proof.
  revert k; induction l as [|y l IH]; intros k Hnot; simpl.
  - eexists; reflexivity.
  - destruct (Z.eqb_spec y x) as [->|Hne]; [exfalso; apply Hnot; now left|].
    apply IH. intros H. apply Hnot. now right.
Qed.

(** X19. [_get_single_direct_match] returns the name at the first position
    that holds [max_ratio]. It raises [ValueError] when no ratio equals
    [max_ratio], and [IndexError] when that position lies beyond the
    table. *)
Theorem single_direct_match_outcome
  (ratios : list Z) (max_ratio : Z) (cpu_df : DataFrame) :
  (~ In max_ratio ratios ->
   exists msg, _get_single_direct_match ratios max_ratio cpu_df = Raise (ValueError msg))
  /\ (forall i,
        nth_error ratios i = Some max_ratio ->
        (forall j y, (j < i)%nat -> nth_error ratios j = Some y -> y <> max_ratio) ->
        (forall n, nth_error (names cpu_df) i = Some n ->
                   _get_single_direct_match ratios max_ratio cpu_df = Ok n)
        /\ (nth_error (names cpu_df) i = None ->
            exists msg,
              _get_single_direct_match ratios max_ratio cpu_df = Raise (IndexError msg))).
Proof.
  unfold _get_single_direct_match, index. split.
  - intros Hnot. destruct (index_absent ratios max_ratio 0 Hnot) as [msg ->].
    now exists msg.
  - intros i Hi Hfirst.
    destruct (index_first ratios max_ratio (nth_error_In _ _ Hi))
      as (i' & Hidx & Hi' & Hfirst').
    assert (i' = i) as ->.
    { destruct (Nat.lt_total i' i) as [Hlt|[E|Hlt]]; [|exact E|].
      - exfalso. now apply (Hfirst i' max_ratio Hlt Hi').
      - exfalso. now apply (Hfirst' i max_ratio Hlt Hi). }
    unfold index in Hidx. rewrite Hidx. simpl bind. unfold name_iloc. split.
    + intros n ->. reflexivity.
    + intros ->. eexists. reflexivity.
Qed.

(** X20. [_get_cpus] returns the names found at the given labels, in the
    order of the labels, when every label is a row of the table; the first
    label that is not raises [KeyError] with that label. *)
Theorem get_cpus_outcome (cpu_df : DataFrame) :
  (forall idxs,
      (forall i, In i idxs -> (i < List.length cpu_df)%nat) ->
      exists cpus,
        _get_cpus cpu_df idxs = Ok cpus
        /\ Forall2 (fun i c => nth_error (names cpu_df) i = Some c) idxs cpus)
  /\ (forall before i after,
        (forall j, In j before -> (j < List.length cpu_df)%nat) ->
        (List.length cpu_df <= i)%nat ->
        _get_cpus cpu_df (before ++ i :: after) = Raise (KeyError (str_nat i))).
Proof.
  assert (Hvalid : forall i, (i < List.length cpu_df)%nat ->
                             exists n, nth_error (names cpu_df) i = Some n).
  { intros i Hi. destruct (nth_error (names cpu_df) i) eqn:E; [now eexists|].
    apply nth_error_None in E. unfold names in E. rewrite length_map in E. lia. }
  split.
  - intros idxs Hall. apply get_cpus_defined. intros i Hi. apply Hvalid. now apply Hall.
  - intros before i after Hbefore Hi. unfold _get_cpus.
    induction before as [|j before IH]; simpl.
    + unfold name_at_label.
      assert (E : nth_error (names cpu_df) i = None).
      { apply nth_error_None. unfold names. rewrite length_map. exact Hi. }
      now rewrite E.
    + destruct (Hvalid j (Hbefore j (or_introl eq_refl))) as [n Hn].
      unfold name_at_label at 1. rewrite Hn. simpl bind.
      rewrite IH; [reflexivity|]. intros j' Hj'. apply Hbefore. now right.
Qed.

End TDPMore.

(* ================================================================== *)
(** * Further facts about the Power Gadget backend *)
(* ================================================================== *)

Module IntelPowerGadgetMore.
Import Py IntelPowerGadget IntelPowerGadgetFacts.

Lemma keys_set_cases {V} (d : dict V) (c k : string) (v : V) :
  In k (keys (dict_set d c v)) -> In k (keys d) \/ k = c.
Proof.
  rewrite !in_keys_get, dict_get_set.
  destruct (String.eqb_spec c k) as [->|Hne]; [now right|now left].
Qed.

(** One column: the logger is left alone and the outcome does not depend on
    it; the dictionary is unchanged or gains the column, which is then not
    an excluded one. *)
Lemma aggregate_column_frame (cpu_data : DataFrame) (col : string) (d : dict cell) :
  exists r d',
    (forall lg, aggregate_column cpu_data col (d, lg) = (r, (d', lg)))
    /\ (d' = d \/ (is_excluded col = false /\ exists v, d' = dict_set d col v)).
Proof.
  unfold aggregate_column. fold (is_excluded col).
  destruct (is_excluded col).
  { exists (Ok tt), d. split; [reflexivity|now left]. }
  destruct (contains "Cumulative" col); unfold bindM, lift;
    destruct (column cpu_data col) as [series|e].
  - destruct (iloc_last series) as [v|e].
    + exists (Ok tt), (dict_set d col v). split; [reflexivity|].
      right. split; [reflexivity|now exists v].
    + exists (Raise e), d. split; [reflexivity|now left].
  - exists (Raise e), d. split; [reflexivity|now left].
  - exists (Ok tt), (dict_set d col (mean series)). split; [reflexivity|].
    right. split; [reflexivity|now exists (mean series)].
  - exists (Raise e), d. split; [reflexivity|now left].
Qed.

Lemma for_each_frame (cpu_data : DataFrame) (cols : list string) (d : dict cell) :
  exists r d',
    (forall lg, for_each cols (aggregate_column cpu_data) (d, lg) = (r, (d', lg)))
    /\ forall k, In k (keys d') ->
                 In k (keys d) \/ (In k cols /\ is_excluded k = false).
Proof.
  revert d; induction cols as [|c cols IH]; intros d.
  - exists (Ok tt), d. split; [reflexivity|]. intros k Hk; now left.
  - destruct (aggregate_column_frame cpu_data c d) as (r1 & d1 & Hrun1 & Hd1).
    assert (Hkeys1 : forall k, In k (keys d1) ->
                               In k (keys d) \/ (k = c /\ is_excluded k = false)).
    { intros k Hk. destruct Hd1 as [->|(Hex & v & ->)]; [now left|].
      apply keys_set_cases in Hk. destruct Hk as [Hk| ->]; [now left|now right]. }
    destruct r1 as [[]|e].
    + destruct (IH d1) as (r & d' & Hrun & Hd').
      exists r, d'. split.
      * intros lg. simpl. unfold bindM. rewrite Hrun1. apply Hrun.
      * intros k Hk. destruct (Hd' k Hk) as [H1|[Hin Hex]].
        -- destruct (Hkeys1 k H1) as [H|[-> Hex]]; [now left|].
           right. split; [now left|exact Hex].
        -- right. split; [now right|exact Hex].
    + exists (Raise e), d1. split.
      * intros lg. simpl. unfold bindM. now rewrite Hrun1.
      * intros k Hk. destruct (Hkeys1 k Hk) as [H|[-> Hex]]; [now left|].
        right. split; [now left|exact Hex].
Qed.

(** The method as a whole, for a frame that was read. *)
Lemma get_cpu_details_frame (self : t) (returncode : Z) (df : DataFrame) :
  exists d tail,
    (forall k, In k (keys d) -> In k (columns df) /\ ~ In k excluded)
    /\ (tail = [] \/ exists e, tail = [LogRecord INFO (msg_unreadable self e)])
    /\ forall lg, exists warn,
         (warn = [] \/ exists msg, warn = [LogRecord WARNING msg])
         /\ get_cpu_details self returncode (Ok df) lg = (Ok d, lg ++ warn ++ tail).
Proof.
  destruct (for_each_frame (dropna df) (columns df) []) as (r & d & Hrun & Hkeys).
  assert (Hsub : forall k, In k (keys d) -> In k (columns df) /\ ~ In k excluded).
  { intros k Hk. destruct (Hkeys k Hk) as [[]|[Hin Hex]]. split; [exact Hin|].
    rewrite <- is_excluded_In. congruence. }
  destruct (@log_values_eval cell self returncode) as (warn & Hwarn & Hlog).
  destruct r as [[]|e].
  - exists d, []. split; [exact Hsub|]. split; [now left|].
    intros lg. exists warn. split; [exact Hwarn|].
    unfold get_cpu_details, returning_dict, bindM, try_except, lift.
    rewrite Hlog. simpl columns. rewrite Hrun. now rewrite app_nil_r.
  - exists d, [LogRecord INFO (msg_unreadable self e)].
    split; [exact Hsub|]. split; [right; now exists e|].
    intros lg. exists warn. split; [exact Hwarn|].
    unfold get_cpu_details, returning_dict, bindM, try_except, lift.
    rewrite Hlog. simpl columns. rewrite Hrun. unfold logf. simpl.
    now rewrite app_assoc.
Qed.

(** X6. Sampling never raises: whatever [pd.read_csv] returns or raises and
    whatever the frame holds, the method returns a dictionary; its keys are
    columns of the frame and none of them is "System Time",
    "Elapsed Time (sec)" or "RDTSC"; and the logger receives at most one
    warning and at most one INFO record. *)
Theorem sampling_never_raises
  (self : t) (returncode : Z) (read_csv : result DataFrame) (lg : logger) :
  exists cpu_details warn tail,
    get_cpu_details self returncode read_csv lg = (Ok cpu_details, lg ++ warn ++ tail)
    /\ (warn = [] \/ exists msg, warn = [LogRecord WARNING msg])
    /\ (tail = [] \/ exists e, tail = [LogRecord INFO (msg_unreadable self e)])
    /\ forall k, In k (keys cpu_details) ->
                 ~ In k excluded
                 /\ exists df, read_csv = Ok df /\ In k (columns df).
Proof.
  destruct read_csv as [df|e].
  - destruct (get_cpu_details_frame self returncode df) as (d & tail & Hkeys & Htail & Hrun).
    destruct (Hrun lg) as (warn & Hwarn & Heq).
    exists d, warn, tail. repeat split; trivial.
    + now apply Hkeys.
    + exists df. split; [reflexivity|now apply Hkeys].
  - destruct (@log_values_eval cell self returncode) as (warn & Hwarn & Hlog).
    exists [], warn, [LogRecord INFO (msg_unreadable self e)].
    split; [|split; [exact Hwarn|split; [right; now exists e|intros k []]]].
    unfold get_cpu_details, returning_dict, bindM, try_except, lift.
    rewrite Hlog. unfold logf. simpl. now rewrite app_assoc.
Qed.

(** X7. The dictionary depends on the parsed log alone: the exit status of
    the tool, the platform and paths of the instance and the state of the
    logger do not change it. *)
Theorem sample_depends_on_log_only
  (self1 self2 : t) (returncode1 returncode2 : Z)
  (read_csv : result DataFrame) (lg1 lg2 : logger) :
  fst (get_cpu_details self1 returncode1 read_csv lg1)
  = fst (get_cpu_details self2 returncode2 read_csv lg2).
Proof.
  destruct read_csv as [df|e].
  - destruct (for_each_frame (dropna df) (columns df) []) as (r & d & Hrun & _).
    destruct (@log_values_eval cell self1 returncode1) as (w1 & _ & Hlog1).
    destruct (@log_values_eval cell self2 returncode2) as (w2 & _ & Hlog2).
    unfold get_cpu_details, returning_dict, bindM, try_except, lift.
    rewrite Hlog1, Hlog2. simpl columns. rewrite !Hrun.
    destruct r as [[]|e]; reflexivity.
  - destruct (@log_values_eval cell self1 returncode1) as (w1 & _ & Hlog1).
    destruct (@log_values_eval cell self2 returncode2) as (w2 & _ & Hlog2).
    unfold get_cpu_details, returning_dict, bindM, try_except, lift.
    rewrite Hlog1, Hlog2. reflexivity.
Qed.

(** ** A log without a complete row *)

Local Abbreviation out_of_bounds :=
  (IndexError "single positional indexer is out-of-bounds").

Local Abbreviation cumulative c :=
  (negb (is_excluded c) && contains "Cumulative" c)%bool.

Lemma column_no_rows (cpu_data : DataFrame) (col : string) :
  rows cpu_data = [] -> In col (columns cpu_data) -> column cpu_data col = Ok [].
Proof.
  intros Hrows Hin. unfold column.
  destruct (position_defined col (columns cpu_data) Hin) as [j ->].
  now rewrite Hrows.
Qed.

Lemma aggregate_column_no_rows (cpu_data : DataFrame) (col : string)
  (d : dict cell) (lg : logger) :
  rows cpu_data = [] -> In col (columns cpu_data) ->
  aggregate_column cpu_data col (d, lg)
  = if is_excluded col then (Ok tt, (d, lg))
    else if contains "Cumulative" col then (Raise out_of_bounds, (d, lg))
    else (Ok tt, (dict_set d col NaN, lg)).
Proof.
  intros Hrows Hin. unfold aggregate_column. fold (is_excluded col).
  destruct (is_excluded col); [reflexivity|].
  destruct (contains "Cumulative" col); unfold bindM, lift;
    rewrite (column_no_rows _ _ Hrows Hin); reflexivity.
Qed.

Lemma for_each_no_rows (cpu_data : DataFrame) (cols : list string) (d : dict cell) :
  rows cpu_data = [] -> incl cols (columns cpu_data) ->
  exists r d',
    (forall lg, for_each cols (aggregate_column cpu_data) (d, lg) = (r, (d', lg)))
    /\ (forall k v, dict_get d' k = Some v -> dict_get d k = Some v \/ v = NaN)
    /\ (forall c, cumulative c = true -> dict_get d c = None -> dict_get d' c = None)
    /\ (forall k, dict_get d k <> None -> dict_get d' k <> None)
    /\ (existsb (fun c => cumulative c) cols = false ->
        r = Ok tt
        /\ forall c, In c cols -> is_excluded c = false -> dict_get d' c <> None)
    /\ (existsb (fun c => cumulative c) cols = true -> r = Raise out_of_bounds).
Proof.
  intros Hrows. revert d; induction cols as [|c cols IH]; intros d Hincl.
  - exists (Ok tt), d. repeat split; trivial; try discriminate.
    + intros k v H; now left.
    + intros c [].
  - assert (Hc : In c (columns cpu_data)) by (apply Hincl; now left).
    assert (Hincl' : incl cols (columns cpu_data)).
    { intros x Hx. apply Hincl. now right. }
    pose proof (fun lg => aggregate_column_no_rows cpu_data c d lg Hrows Hc) as Hstep.
    simpl existsb. simpl for_each. unfold bindM.
    destruct (is_excluded c) eqn:Hex; simpl.
    + destruct (IH d Hincl') as (r & d' & Hrun & H1 & H2 & H3 & H4 & H5).
      exists r, d'. split; [intros lg; rewrite Hstep; apply Hrun|].
      repeat split; trivial.
      * now apply H4.
      * intros c' [<-|Hin] Hex'; [congruence|]. now apply H4.
    + destruct (contains "Cumulative" c) eqn:Hcum; simpl.
      * exists (Raise out_of_bounds), d.
        split; [intros lg; now rewrite Hstep|].
        repeat split; trivial; try discriminate. intros k v H; now left.
      * destruct (IH (dict_set d c NaN) Hincl') as (r & d' & Hrun & H1 & H2 & H3 & H4 & H5).
        exists r, d'. split; [intros lg; rewrite Hstep; apply Hrun|].
        split; [|split; [|split; [|split]]].
        -- intros k v Hget. destruct (H1 k v Hget) as [Hset|E]; [|now right].
           rewrite dict_get_set in Hset.
           destruct (String.eqb c k); [right; congruence|now left].
        -- intros c' Hc' Hnone. apply H2; [exact Hc'|]. rewrite dict_get_set.
           destruct (String.eqb_spec c c') as [<-|Hne]; [|exact Hnone].
           rewrite Hex, Hcum in Hc'. discriminate.
        -- intros k Hk. apply H3. rewrite dict_get_set.
           destruct (String.eqb c k); [discriminate|exact Hk].
        -- intros Hno. destruct (H4 Hno) as [-> Hall]. split; [reflexivity|].
           intros c' [<-|Hin] Hex'; [|now apply Hall].
           apply H3. rewrite dict_get_set, String.eqb_refl. discriminate.
        -- exact H5.
Qed.

(** X8. When no row is left after [dropna], every value the method returns
    is NaN. If no reported column is cumulative, each reported column is
    mapped to NaN and nothing is logged about the file; if one is, the read
    of its last value raises [IndexError], which is logged at INFO level,
    and no cumulative column is in the result. *)
Theorem sample_without_rows
  (self : t) (returncode : Z) (df : DataFrame) (lg : logger) :
  rows (dropna df) = [] ->
  exists cpu_details warn tail,
    get_cpu_details self returncode (Ok df) lg = (Ok cpu_details, lg ++ warn ++ tail)
    /\ (warn = [] \/ exists msg, warn = [LogRecord WARNING msg])
    /\ (forall k v, dict_get cpu_details k = Some v -> v = NaN)
    /\ ((forall c, In c (columns df) -> ~ In c excluded ->
                   contains "Cumulative" c = false) ->
        tail = []
        /\ forall c, In c (columns df) -> ~ In c excluded ->
                     dict_get cpu_details c = Some NaN)
    /\ (forall c, In c (columns df) -> ~ In c excluded ->
                  contains "Cumulative" c = true ->
                  (exists msg,
                      tail = [LogRecord INFO (msg_unreadable self (IndexError msg))])
                  /\ forall c', ~ In c' excluded -> contains "Cumulative" c' = true ->
                                dict_get cpu_details c' = None).
Proof.
  intros Hrows.
  destruct (for_each_no_rows (dropna df) (columns df) [] Hrows (incl_refl _))
    as (r & d & Hrun & HNaN & Hcum & _ & Hnone & Hsome).
  destruct (@log_values_eval cell self returncode) as (warn & Hwarn & Hlog).
  assert (Hall : forall k v, dict_get d k = Some v -> v = NaN).
  { intros k v H. destruct (HNaN k v H) as [H0|E]; [discriminate|exact E]. }
  assert (Hex : forall c, ~ In c excluded -> is_excluded c = false).
  { intros c Hc. destruct (is_excluded c) eqn:E; [|reflexivity].
    apply is_excluded_In in E. contradiction. }
  destruct (existsb (fun c => cumulative c) (columns df)) eqn:Hany.
  - specialize (Hsome eq_refl). subst r.
    exists d, warn, [LogRecord INFO (msg_unreadable self out_of_bounds)].
    split; [|split; [exact Hwarn|split; [exact Hall|split]]].
    + unfold get_cpu_details, returning_dict, bindM, try_except, lift.
      rewrite Hlog. simpl columns. rewrite Hrun. unfold logf. simpl.
      now rewrite app_assoc.
    + intros Hno. exfalso. apply existsb_exists in Hany.
      destruct Hany as (c & Hc & Hcc). apply andb_true_iff in Hcc.
      destruct Hcc as [Hnex Hcu]. apply negb_true_iff in Hnex.
      rewrite (Hno c Hc) in Hcu; [discriminate|].
      rewrite <- is_excluded_In. congruence.
    + intros c Hc Hnex Hcu. split; [eexists; reflexivity|].
      intros c' Hnex' Hcu'. apply Hcum; [|reflexivity].
      now rewrite (Hex c' Hnex'), Hcu'.
  - destruct (Hnone eq_refl) as [-> Hpresent].
    exists d, warn, [].
    split; [|split; [exact Hwarn|split; [exact Hall|split]]].
    + unfold get_cpu_details, returning_dict, bindM, try_except, lift.
      rewrite Hlog. simpl columns. rewrite Hrun. now rewrite app_nil_r.
    + intros _. split; [reflexivity|]. intros c Hc Hnex.
      destruct (dict_get d c) as [v|] eqn:Hget.
      * now rewrite (Hall _ _ Hget).
      * exfalso. now apply (Hpresent c Hc (Hex c Hnex)).
    + intros c Hc Hnex Hcu. exfalso.
      assert (existsb (fun c => cumulative c) (columns df) = true); [|congruence].
      apply existsb_exists. exists c. split; [exact Hc|].
      now rewrite (Hex c Hnex), Hcu.
Qed.

End IntelPowerGadgetMore.

(* ================================================================== *)
(** * Further facts about the RAPL backend *)
(* ================================================================== *)

Module IntelRAPLMore.
Import Py PyFacts IntelPowerGadgetFacts IntelRAPL IntelRAPLFacts.

Lemma to_uint_not_Nil (n : nat) : Nat.to_uint n <> Decimal.Nil.
Proof.
  intros E. pose proof (DecimalNat.Unsigned.of_to n) as H. rewrite E in H.
  simpl in H. subst n. discriminate.
Qed.

(** [str] is injective on the counters. *)
Lemma str_nat_inj (i j : nat) : str_nat i = str_nat j -> i = j.
Proof.
  unfold str_nat. intros E. apply (f_equal NilZero.uint_of_string) in E.
  rewrite !NilZero.usu in E by apply to_uint_not_Nil.
  injection E as E. now apply DecimalNat.Unsigned.to_uint_inj.
Qed.

Lemma length_append (a b : string) :
  String.length (a ++ b) = (String.length a + String.length b)%nat.
Proof. induction a as [|c a IH]; simpl; [reflexivity|now rewrite IH]. Qed.

Lemma package_label_inj (i j : nat) : package_label i = package_label j -> i = j.
Proof.
  unfold package_label. intros E.
  apply str_nat_inj.
  change ("Processor Power_" ++ (str_nat i ++ "(Watt)")
          = "Processor Power_" ++ (str_nat j ++ "(Watt)"))%string in E.
  assert (Hcancel : forall p a b : string, (p ++ a = p ++ b)%string -> a = b).
  { induction p as [|c p IH]; simpl; intros a b H; [exact H|].
    injection H as H. now apply IH. }
  apply Hcancel in E.
  assert (Hlen : String.length (str_nat i) = String.length (str_nat j)).
  { apply (f_equal String.length) in E. rewrite !length_append in E. lia. }
  revert Hlen E. generalize (str_nat i) (str_nat j).
  induction s as [|c s IH]; intros [|c' s']; simpl; try discriminate; trivial.
  intros [= Hlen] [= -> E]. f_equal. now apply IH.
Qed.

Lemma packages_before_mono (names : list string) (k1 k2 : nat) (n1 : string) :
  (k1 < k2)%nat -> nth_error names k1 = Some n1 -> is_package n1 = true ->
  (packages_before names k1 < packages_before names k2)%nat.
Proof.
  unfold packages_before.
  revert k1 k2; induction names as [|n names IH]; intros [|k1] [|k2] Hlt Hn Hp;
    simpl in *; try discriminate; try lia.
  - injection Hn as ->. rewrite Hp. simpl. lia.
  - specialize (IH k1 k2 ltac:(lia) Hn Hp).
    destruct (is_package n); simpl; lia.
Qed.

Section Discovery.

Variable reading : Type.
Variable reading0 : reading.

Lemma Forall2_nth {A B} (R : A -> B -> Prop) (xs : list A) (ys : list B)
  (k : nat) (x : A) :
  Forall2 R xs ys -> nth_error xs k = Some x ->
  exists y, nth_error ys k = Some y /\ R x y.
Proof.
  intros H. revert k; induction H as [|x0 y0 xs ys Hxy _ IH]; intros [|k]; simpl;
    try discriminate.
  - intros [= <-]. now exists y0.
  - apply IH.
Qed.

Lemma declared_functional (fs : filesystem) (dir file n n' : string) :
  declared fs dir file n -> declared fs dir file n' -> n = n'.
Proof. intros (c & Hc & ->) (c' & Hc' & ->). congruence. Qed.

(** The counter built from the [k]-th kept entry. *)
Lemma discovered_name (fs : filesystem) (self self' : t reading)
  (entries : list string) (k : nat) (file n : string) (f : RAPLFile reading) :
  _rapl_files self = [] ->
  _fetch_rapl_files reading0 fs self = Ok self' ->
  listdir fs (_lin_rapl_dir self) = Ok entries ->
  nth_error (filter (fun x => contains ":" x) entries) k = Some file ->
  declared fs (_lin_rapl_dir self) file n ->
  nth_error (_rapl_files self') k = Some f ->
  exists names,
    Forall2 (declared fs (_lin_rapl_dir self))
            (filter (fun x => contains ":" x) entries) names
    /\ nth_error names k = Some n
    /\ name f = label (packages_before names k) n.
Proof.
  intros Hnil Hfetch Hl Hk Hn Hf.
  destruct (fetch_files _ reading0 fs self self' Hnil Hfetch)
    as (entries' & names & Hl' & Hall & Hfiles & _ & _).
  rewrite Hl in Hl'. injection Hl' as <-.
  exists names. split; [exact Hall|].
  destruct (Forall2_nth _ _ _ _ _ Hall Hk) as (n' & Hn' & Hd).
  rewrite (declared_functional _ _ _ _ _ Hn Hd). split; [exact Hn'|].
  rewrite Hfiles, nth_error_map in Hf.
  rewrite (nth_error_combine _ _ _ _ _ Hk (relabel_nth names 0 k n' Hn')) in Hf.
  simpl in Hf. injection Hf as <-. reflexivity.
Qed.

(** X9. Discovery gives the package domains distinct names: the counters
    built from two different kept entries whose declared names both
    contain "package" never carry the same label, so a sample keeps one key
    per socket. *)
Theorem package_labels_distinct
  (fs : filesystem) (self self' : t reading) (entries : list string)
  (k1 k2 : nat) (file1 file2 n1 n2 : string) (f1 f2 : RAPLFile reading) :
  _rapl_files self = [] ->
  _fetch_rapl_files reading0 fs self = Ok self' ->
  listdir fs (_lin_rapl_dir self) = Ok entries ->
  k1 <> k2 ->
  nth_error (filter (fun x => contains ":" x) entries) k1 = Some file1 ->
  nth_error (filter (fun x => contains ":" x) entries) k2 = Some file2 ->
  declared fs (_lin_rapl_dir self) file1 n1 ->
  declared fs (_lin_rapl_dir self) file2 n2 ->
  contains "package" n1 = true ->
  contains "package" n2 = true ->
  nth_error (_rapl_files self') k1 = Some f1 ->
  nth_error (_rapl_files self') k2 = Some f2 ->
  name f1 <> name f2.
Proof.
  intros Hnil Hfetch Hl Hne Hk1 Hk2 Hd1 Hd2 Hp1 Hp2 Hf1 Hf2.
  destruct (discovered_name fs self self' entries k1 file1 n1 f1
              Hnil Hfetch Hl Hk1 Hd1 Hf1) as (names & Hall & Hn1 & ->).
  destruct (discovered_name fs self self' entries k2 file2 n2 f2
              Hnil Hfetch Hl Hk2 Hd2 Hf2) as (names' & Hall' & Hn2 & ->).
  assert (names' = names) as ->.
  { clear - Hall Hall'. revert names' Hall'.
    induction Hall as [|x y xs ys Hxy _ IH]; intros names' H; inversion H; subst.
    - reflexivity.
    - f_equal; [eapply declared_functional; eassumption|now apply IH]. }
  unfold label, is_package. rewrite Hp1, Hp2. intros E.
  apply package_label_inj in E.
  destruct (Nat.lt_total k1 k2) as [Hlt|[Heq|Hlt]]; [|contradiction|].
  - pose proof (packages_before_mono names k1 k2 n1 Hlt Hn1 Hp1). lia.
  - pose proof (packages_before_mono names k2 k1 n2 Hlt Hn2 Hp2). lia.
Qed.

Local Abbreviation kept entries := (filter (fun x => contains ":" x) entries).
Local Abbreviation name_path dir file := (path_join3 dir file "name").

Lemma fetch_loop_defined (fs : filesystem) (dir : string) (files : list string)
  (i : nat) (acc : list (RAPLFile reading)) :
  (forall file, In file files -> exists c, read fs (name_path dir file) = Ok c) ->
  exists out,
    fetch_loop reading0 fs dir files i acc = Ok out
    /\ List.length out = (List.length acc + List.length files)%nat.
Proof.
  revert i acc; induction files as [|file files IH]; intros i acc Hread; simpl.
  - exists acc. split; [reflexivity|lia].
  - destruct (Hread file (or_introl eq_refl)) as [c ->]. simpl bind.
    assert (Hrest : forall f, In f files -> exists c, read fs (name_path dir f) = Ok c).
    { intros f Hf. apply Hread. now right. }
    destruct (contains "package" (strip c)).
    + destruct (IH (S i) (acc ++ [{| name := package_label i;
                                     path := path_join3 dir file "energy_uj";
                                     measured := reading0 |}]) Hrest)
        as (out & -> & Hlen).
      exists out. split; [reflexivity|]. rewrite Hlen, length_app. simpl. lia.
    + destruct (IH i (acc ++ [{| name := strip c;
                                 path := path_join3 dir file "energy_uj";
                                 measured := reading0 |}]) Hrest)
        as (out & -> & Hlen).
      exists out. split; [reflexivity|]. rewrite Hlen, length_app. simpl. lia.
Qed.

Lemma fetch_loop_fails (fs : filesystem) (dir : string)
  (before : list string) (file : string) (after : list string)
  (i : nat) (acc : list (RAPLFile reading)) (e : exception) :
  (forall f, In f before -> exists c, read fs (name_path dir f) = Ok c) ->
  read fs (name_path dir file) = Raise e ->
  fetch_loop reading0 fs dir (before ++ file :: after) i acc = Raise e.
Proof.
  revert i acc; induction before as [|f before IH]; intros i acc Hread He; simpl.
  - now rewrite He.
  - destruct (Hread f (or_introl eq_refl)) as [c ->]. simpl bind.
    assert (Hrest : forall f, In f before -> exists c, read fs (name_path dir f) = Ok c).
    { intros f' Hf'. apply Hread. now right. }
    destruct (contains "package" (strip c)); now apply IH.
Qed.

Lemma fetch_loop_ext (fs1 fs2 : filesystem) (dir : string) (files : list string)
  (i : nat) (acc : list (RAPLFile reading)) :
  (forall file, In file files ->
                read fs1 (name_path dir file) = read fs2 (name_path dir file)) ->
  fetch_loop reading0 fs1 dir files i acc = fetch_loop reading0 fs2 dir files i acc.
Proof.
  revert i acc; induction files as [|file files IH]; intros i acc Hsame; simpl;
    [reflexivity|].
  rewrite <- (Hsame file (or_introl eq_refl)).
  destruct (read fs1 (name_path dir file)) as [c|e]; simpl bind; [|reflexivity].
  destruct (contains "package" (strip c)); apply IH; intros f Hf; apply Hsame; now right.
Qed.

(** X10. Discovery succeeds exactly when the root can be listed and the
    [name] file of every kept entry can be read: it then adds one counter
    per kept entry. A failing listing, or the first kept entry whose [name]
    file cannot be read, ends it with that exception and no object is
    built. *)
Theorem discovery_outcome (fs : filesystem) (self : t reading) :
  (forall e, listdir fs (_lin_rapl_dir self) = Raise e ->
             _fetch_rapl_files reading0 fs self = Raise e)
  /\ (forall entries,
        listdir fs (_lin_rapl_dir self) = Ok entries ->
        (forall file, In file (kept entries) ->
                      exists c, read fs (name_path (_lin_rapl_dir self) file) = Ok c) ->
        exists self',
          _fetch_rapl_files reading0 fs self = Ok self'
          /\ List.length (_rapl_files self')
             = (List.length (_rapl_files self) + List.length (kept entries))%nat)
  /\ (forall entries before file after e,
        listdir fs (_lin_rapl_dir self) = Ok entries ->
        kept entries = before ++ file :: after ->
        (forall f, In f before ->
                   exists c, read fs (name_path (_lin_rapl_dir self) f) = Ok c) ->
        read fs (name_path (_lin_rapl_dir self) file) = Raise e ->
        _fetch_rapl_files reading0 fs self = Raise e).
Proof.
  unfold _fetch_rapl_files. repeat split.
  - intros e ->. reflexivity.
  - intros entries -> Hread. simpl bind.
    destruct (fetch_loop_defined fs (_lin_rapl_dir self) (kept entries) 0
                (_rapl_files self) Hread) as (out & -> & Hlen).
    eexists. split; [reflexivity|exact Hlen].
  - intros entries before file after e -> Hk Hread He. simpl bind. rewrite Hk.
    now rewrite (fetch_loop_fails fs _ before file after 0 _ e Hread He).
Qed.

(** X11. Discovery looks at nothing but the listing of the root and the
    [name] files of the kept entries: two file systems that agree on these
    give the same outcome, whatever else they hold (entries without ":",
    the [energy_uj] files). *)
Theorem discovery_reads_names_only (fs1 fs2 : filesystem) (self : t reading) :
  listdir fs1 (_lin_rapl_dir self) = listdir fs2 (_lin_rapl_dir self) ->
  (forall entries file,
      listdir fs1 (_lin_rapl_dir self) = Ok entries ->
      In file entries -> contains ":" file = true ->
      read fs1 (name_path (_lin_rapl_dir self) file)
      = read fs2 (name_path (_lin_rapl_dir self) file)) ->
  _fetch_rapl_files reading0 fs1 self = _fetch_rapl_files reading0 fs2 self.
Proof.
  intros Hl Hread. unfold _fetch_rapl_files. rewrite <- Hl.
  destruct (listdir fs1 (_lin_rapl_dir self)) as [entries|e] eqn:El; [|reflexivity].
  simpl bind.
  rewrite (fetch_loop_ext fs1 fs2 (_lin_rapl_dir self) (kept entries) 0 (_rapl_files self)).
  - reflexivity.
  - intros file Hin. apply filter_In in Hin. destruct Hin as [Hin Hc].
    now apply (Hread entries).
Qed.

End Discovery.

Section Sampling.

Variable reading : Type.
Variable power : Type.
Variable start : string -> reading -> result reading.
Variable end_ : Q -> string -> reading -> result reading.
Variable power_measurement : reading -> power.

Local Abbreviation store :=
  (fun (d : dict power) (f : RAPLFile reading) =>
     dict_set d (name f) (power_measurement (measured f))).




Lemma started_nth (files started : list (RAPLFile reading)) (k : nat)
  (f : RAPLFile reading) :
  map_result (RAPLFile_start start) files = Ok started ->
  nth_error files k = Some f ->
  exists r1,
    start (path f) (measured f) = Ok r1
    /\ nth_error started k = Some {| name := name f; path := path f; measured := r1 |}.
Proof.
  intros H Hk. apply map_result_Forall2 in H.
  destruct (Forall2_nth _ _ _ _ _ H Hk) as (g & Hg & Hfg).
  unfold RAPLFile_start in Hfg.
  destruct (start (path f) (measured f)) as [r1|]; simpl in Hfg; [|discriminate].
  injection Hfg as <-. now exists r1.
Qed.

Lemma ended_nth (delay : Q) (files ended : list (RAPLFile reading)) (k : nat)
  (f : RAPLFile reading) :
  map_result (RAPLFile_end end_ delay) files = Ok ended ->
  nth_error files k = Some f ->
  exists r2,
    end_ delay (path f) (measured f) = Ok r2
    /\ nth_error ended k = Some {| name := name f; path := path f; measured := r2 |}.
Proof.
  intros H Hk. apply map_result_Forall2 in H.
  destruct (Forall2_nth _ _ _ _ _ H Hk) as (g & Hg & Hfg).
  unfold RAPLFile_end in Hfg.
  destruct (end_ delay (path f) (measured f)) as [r2|]; simpl in Hfg; [|discriminate].
  injection Hfg as <-. now exists r2.
Qed.

Lemma store_get_other (files : list (RAPLFile reading)) (d : dict power) (k : string) :
  ~ In k (map name files) -> dict_get (fold_left store files d) k = dict_get d k.
Proof.
  revert d; induction files as [|f files IH]; intros d Hnot; simpl; [reflexivity|].
  rewrite IH by (intros H; apply Hnot; now right).
  rewrite dict_get_set. destruct (String.eqb_spec (name f) k) as [E|Hne]; [|reflexivity].
  exfalso. apply Hnot. now left.
Qed.

Lemma store_get (files : list (RAPLFile reading)) (d : dict power)
  (f : RAPLFile reading) :
  NoDup (map name files) -> In f files ->
  dict_get (fold_left store files d) (name f) = Some (power_measurement (measured f)).
Proof.
  revert d; induction files as [|f0 files IH]; intros d Hnd Hin; [contradiction|].
  simpl in *. inversion Hnd as [|? ? Hnot Hnd']; subst.
  destruct Hin as [->|Hin]; [|now apply IH].
  rewrite (store_get_other _ _ _ Hnot), dict_get_set, String.eqb_refl. reflexivity.
Qed.

(** X21. In a sample whose reads succeed, and with counters of distinct
    names, the value under a counter's name is the power derived from its
    own two reads: [start] on its path, then [end] on the same path with the
    delay of the instance, the same delay for every counter. *)
Theorem counter_sample_values
  (self : t reading) (lg : logger) (started ended : list (RAPLFile reading)) :
  map_result (RAPLFile_start start) (_rapl_files self) = Ok started ->
  map_result (RAPLFile_end end_ (_delay self)) started = Ok ended ->
  NoDup (map name (_rapl_files self)) ->
  exists cpu_details,
    get_cpu_details start end_ power_measurement self lg = (Ok cpu_details, lg)
    /\ forall f, In f (_rapl_files self) ->
         exists r1 r2,
           start (path f) (measured f) = Ok r1
           /\ end_ (_delay self) (path f) r1 = Ok r2
           /\ dict_get cpu_details (name f) = Some (power_measurement r2).
Proof.
  intros Hs He Hnd.
  destruct (sample_ok _ _ start end_ power_measurement self lg started ended Hs He)
    as [Hrun Hnames].
  eexists. split; [exact Hrun|].
  intros f Hin. apply In_nth_error in Hin. destruct Hin as [k Hk].
  destruct (started_nth _ _ k f Hs Hk) as (r1 & Hr1 & Hk1).
  destruct (ended_nth _ _ _ k _ He Hk1) as (r2 & Hr2 & Hk2). simpl in Hr2, Hk2.
  exists r1, r2. split; [exact Hr1|]. split; [exact Hr2|].
  apply nth_error_In in Hk2.
  rewrite <- Hnames in Hnd.
  exact (store_get ended [] _ Hnd Hk2).
Qed.

End Sampling.

End IntelRAPLMore.

(* ================================================================== *)
(** * Facts about construction and the probes *)
(* ================================================================== *)

Module AvailabilityFacts.
Import Py IntelPowerGadget Availability.

Lemma truthy_opt_str_Some (o : option string) :
  truthy_opt_str o = true -> exists p, o = Some p /\ p <> ""%string.
Proof.
  destruct o as [p|]; simpl; [|discriminate]. unfold truthy_str.
  intros H. exists p. split; [reflexivity|]. intros ->. discriminate.
Qed.

(** X13. The command [_setup_cli] settles on was found by [shutil.which]:
    it is not empty, the platform is Windows or macOS, and either it is
    what [which] resolved the Windows default name to or [which] resolves
    it. In particular no instance exists on any other platform. *)
Theorem setup_cli_resolves
  (which : string -> option string) (system cli : string) :
  _setup_cli which system = Ok cli ->
  cli <> ""%string
  /\ (startswith system "win" = true \/ startswith system "darwin" = true)
  /\ (which _windows_exec = Some cli \/ truthy_opt_str (which cli) = true).
Proof.
  unfold _setup_cli.
  destruct (startswith system "win") eqn:Hwin.
  - destruct (truthy_opt_str (which _windows_exec)) eqn:H1.
    + destruct (truthy_opt_str_Some _ H1) as (p & Hp & Hne). rewrite Hp.
      intros [= <-]. repeat split; auto.
    + destruct (truthy_opt_str (which _windows_exec_backup)) eqn:H2; [|discriminate].
      intros [= <-]. repeat split; auto. discriminate.
  - destruct (startswith system "darwin") eqn:Hmac; [|discriminate].
    destruct (truthy_opt_str (which _osx_exec)) eqn:H1.
    + intros [= <-]. repeat split; auto. discriminate.
    + destruct (truthy_opt_str (which _osx_exec_backup)) eqn:H2; [|discriminate].
      intros [= <-]. repeat split; auto. discriminate.
Qed.

Lemma lin_is_not_win_or_darwin (platform : string) :
  startswith platform "lin" = true ->
  startswith platform "win" = false /\ startswith platform "darwin" = false.
Proof.
  unfold startswith. intros H. apply String.prefix_correct in H.
  split.
  - destruct (String.prefix "win" platform) eqn:E; [|reflexivity].
    apply String.prefix_correct in E. simpl String.length in *. congruence.
  - destruct (String.prefix "darwin" platform) eqn:E; [|reflexivity].
    apply String.prefix_correct in E.
    destruct platform as [|c platform]; simpl in *; congruence.
Qed.

Section Probes.

Variable reading : Type.
Variable reading0 : reading.

Local Abbreviation found which x := (truthy_opt_str (which x)).
Local Abbreviation default_dir := "/sys/class/powercap/intel-rapl"%string.

(** X14. The Power Gadget probe never raises, and it answers [True]
    exactly when the platform name starts with "win" and [shutil.which]
    finds the Windows executable or its backup location, or starts with
    "darwin" and [shutil.which] finds the macOS executable or its backup
    location. *)
Theorem powergadget_available_iff
  (which : string -> option string) (join : string -> string -> string)
  (platform : string) (lg : logger) :
  (exists b : bool, fst (is_powergadget_available which join platform lg) = Ok b)
  /\ (fst (is_powergadget_available which join platform lg) = Ok true
      <-> (startswith platform "win" = true
           /\ (found which _windows_exec || found which _windows_exec_backup = true)%bool)
          \/ (startswith platform "win" = false
              /\ startswith platform "darwin" = true
              /\ (found which _osx_exec || found which _osx_exec_backup = true)%bool)).
Proof.
  unfold is_powergadget_available, try_except, bindM, lift, log, ret.
  unfold __init__, _setup_cli.
  destruct (startswith platform "win"); simpl.
  - destruct (found which _windows_exec); simpl.
    + split; [now exists true|]. split; [intros _; left; now split|reflexivity].
    + destruct (found which _windows_exec_backup); simpl.
      * split; [now exists true|]. split; [intros _; left; now split|reflexivity].
      * split; [now exists false|]. split; [discriminate|].
        intros [[_ H]|[H _]]; discriminate.
  - destruct (startswith platform "darwin"); simpl.
    + destruct (found which _osx_exec); simpl.
      * split; [now exists true|].
        split; [intros _; right; repeat split|reflexivity].
      * destruct (found which _osx_exec_backup); simpl.
        -- split; [now exists true|].
           split; [intros _; right; repeat split|reflexivity].
        -- split; [now exists false|]. split; [discriminate|].
           intros [[H _]|(_ & _ & H)]; discriminate.
    + split; [now exists false|]. split; [discriminate|].
      intros [[H _]|(_ & H & _)]; discriminate.
Qed.

(** X16. The counter probe never raises, and it answers [True] exactly
    when the platform name starts with "lin", the default root exists and
    can be listed, and the [name] file of each of its entries that contains
    ":" can be read. *)
Theorem rapl_available_iff
  (fs : IntelRAPL.filesystem) (platform : string) (lg : logger) :
  (exists b : bool, fst (is_rapl_available reading0 fs platform lg) = Ok b)
  /\ (fst (is_rapl_available reading0 fs platform lg) = Ok true
      <-> startswith platform "lin" = true
          /\ IntelRAPL.path_exists fs default_dir = true
          /\ exists entries,
               IntelRAPL.listdir fs default_dir = Ok entries
               /\ forall file,
                    In file entries -> contains ":" file = true ->
                    exists c, IntelRAPL.read fs (path_join3 default_dir file "name")
                              = Ok c).
Proof.
  unfold is_rapl_available, try_except, bindM, lift, log, ret.
  unfold IntelRAPL.__init__, IntelRAPL._setup_rapl, IntelRAPL._is_platform_supported.
  simpl IntelRAPL._system. simpl IntelRAPL._lin_rapl_dir.
  destruct (startswith platform "lin"); simpl;
    [|split; [now exists false|split; [discriminate|intros [H _]; discriminate]]].
  destruct (IntelRAPL.path_exists fs default_dir); simpl;
    [|split; [now exists false|split; [discriminate|intros (_ & H & _); discriminate]]].
  set (self := {| IntelRAPL._lin_rapl_dir := default_dir;
                  IntelRAPL._system := platform;
                  IntelRAPL._delay := 1 # 100;
                  IntelRAPL._rapl_files := [] |}).
  destruct (IntelRAPL._fetch_rapl_files reading0 fs self) as [self'|e] eqn:Hf; simpl.
  - split; [now exists true|]. split; [intros _|reflexivity].
    repeat split.
    destruct (IntelRAPLFacts.fetch_files _ reading0 fs self self' eq_refl Hf)
      as (entries & names & Hl & Hall & _).
    exists entries. split; [exact Hl|]. intros file Hin Hc.
    assert (Hk : In file (filter (fun x => contains ":" x) entries))
      by (apply filter_In; now split).
    apply In_nth_error in Hk. destruct Hk as [k Hk].
    destruct (IntelRAPLMore.Forall2_nth _ _ _ _ _ Hall Hk) as (n & _ & c & Hc' & _).
    now exists c.
  - split; [now exists false|]. split; [discriminate|].
    intros (_ & _ & entries & Hl & Hread). exfalso.
    unfold IntelRAPL._fetch_rapl_files in Hf. simpl IntelRAPL._lin_rapl_dir in Hf.
    rewrite Hl in Hf. simpl bind in Hf.
    destruct (IntelRAPLMore.fetch_loop_defined reading reading0 fs default_dir
                (filter (fun x => contains ":" x) entries) 0 [])
      as (out & Hout & _).
    { intros file Hin. apply filter_In in Hin. destruct Hin as [Hin Hc].
      now apply Hread. }
    simpl IntelRAPL._rapl_files in Hf. rewrite Hout in Hf. discriminate.
Qed.

(** X15. On one platform at most one of the two probes answers [True]:
    the counter backend needs a platform name that starts with "lin", the
    Power Gadget backend one that starts with "win" or "darwin". *)
Theorem probes_are_exclusive
  (which : string -> option string) (join : string -> string -> string)
  (fs : IntelRAPL.filesystem) (platform : string) (lg1 lg2 : logger) :
  fst (is_rapl_available reading0 fs platform lg1) = Ok true ->
  fst (is_powergadget_available which join platform lg2) = Ok false.
Proof.
  unfold is_powergadget_available, is_rapl_available, try_except, bindM, lift, log, ret.
  unfold IntelRAPL.__init__, IntelRAPL._setup_rapl, IntelRAPL._is_platform_supported.
  simpl IntelRAPL._system.
  destruct (startswith platform "lin") eqn:Hlin; [|discriminate].
  intros _. destruct (lin_is_not_win_or_darwin platform Hlin) as [Hwin Hmac].
  unfold __init__, _setup_cli. rewrite Hwin, Hmac. reflexivity.
Qed.

End Probes.

End AvailabilityFacts.

(* ================================================================== *)
(** * The further theorems at the concrete inputs *)
(* ================================================================== *)

Module MoreRuns.
Import Py Sample.
Local Open Scope Z_scope.

Local Abbreviation tied := "Intel Core(TM) i7-9750H"%string.
Local Abbreviation upper := "INTEL(R) CORE(TM) I7-9750H CPU @ 2.60GHZ"%string.
Local Abbreviation exact := "Intel(R) Core(TM) i7-9750H CPU @ 2.60GHz"%string.

(** X1 on the empty table and on the sample table. *)
Lemma matching_raises_only_on_empty_witness :
  (exists msg,
      TDP._get_matching_cpu lower ratio token_set_ratio tied [] false
      = Raise (ValueError msg))
  /\ exists r,
       TDP._get_matching_cpu lower ratio token_set_ratio tied cpu_power_df false = Ok r.
Proof.
  split.
  - apply (proj1 (TDPMore.matching_raises_only_on_empty lower ratio token_set_ratio
                    tied [] false)). reflexivity.
  - apply (proj2 (TDPMore.matching_raises_only_on_empty lower ratio token_set_ratio
                    tied cpu_power_df false)). discriminate.
Defined.

(** X2 on a direct match. *)
Lemma greedy_extends_non_greedy_witness :
  TDP._get_matching_cpu lower ratio token_set_ratio upper cpu_power_df false
  = Ok (Some exact)
  /\ Ok (Some exact) <> Ok None
  /\ TDP._get_matching_cpu lower ratio token_set_ratio upper cpu_power_df true
     = Ok (Some exact).
Proof.
  split; [reflexivity|]. split; [discriminate|].
  apply (TDPMore.greedy_extends_non_greedy lower ratio token_set_ratio
           upper cpu_power_df (Ok (Some exact))); [reflexivity|discriminate].
Defined.

(** X4 with a detected model and an empty table. *)
Lemma main_raises_only_on_empty_table_witness :
  truthy_opt_str (TDP._detect_cpu_model [("brand_raw", tied)]%string) = true
  /\ exists msg,
       TDP._main lower ratio token_set_ratio [("brand_raw", tied)]%string [] []
       = (Raise (ValueError msg), []).
Proof.
  split; [reflexivity|].
  apply (proj1 (TDPMore.main_raises_only_on_empty_table lower ratio token_set_ratio
                  [("brand_raw", tied)]%string [] [])); reflexivity.
Defined.

(** X5 on the end-to-end scenario. *)
Lemma main_reports_table_tdp_witness :
  TDP._main lower ratio token_set_ratio [("brand_raw", upper)]%string cpu_power_df []
  = (Ok (upper, Some 45),
     [LogRecord DEBUG (TDP.msg_detected upper (Some 45))])
  /\ TDP._detect_cpu_model [("brand_raw", upper)]%string = Some upper
  /\ (exists r, In r cpu_power_df /\ TDP.TDP r = 45 /\ TDP.Name r <> ""%string)
  /\ [LogRecord DEBUG (TDP.msg_detected upper (Some 45))]
     = [] ++ [LogRecord DEBUG (TDP.msg_detected upper (Some 45))].
Proof.
  split; [reflexivity|].
  apply (TDPMore.main_reports_table_tdp lower ratio token_set_ratio
           [("brand_raw", upper)]%string cpu_power_df []
           [LogRecord DEBUG (TDP.msg_detected upper (Some 45))] upper 45).
  reflexivity.
Defined.

(** X17 on the two spellings of the sample model. *)
Lemma direct_stage_ignores_case_witness :
  lower upper = lower exact
  /\ max (TDP._get_direct_matches lower ratio upper cpu_power_df) = Ok 100
  /\ TDP.THRESHOLD_DIRECT <= 100
  /\ TDP._get_matching_cpu lower ratio token_set_ratio upper cpu_power_df false
     = TDP._get_matching_cpu lower ratio token_set_ratio exact cpu_power_df true.
Proof.
  split; [reflexivity|]. split; [reflexivity|]. split; [discriminate|].
  apply (TDPMore.direct_stage_ignores_case lower ratio token_set_ratio
           upper exact cpu_power_df false true 100); [reflexivity|reflexivity|discriminate].
Defined.

(** X8 on the log whose only row misses a value. *)
Lemma sample_without_rows_witness :
  IntelPowerGadget.rows (IntelPowerGadget.dropna incomplete_log) = []
  /\ exists cpu_details warn tail,
       IntelPowerGadget.get_cpu_details gadget 1 (Ok incomplete_log) []
       = (Ok cpu_details, [] ++ warn ++ tail)
       /\ (warn = [] \/ exists msg, warn = [LogRecord WARNING msg])
       /\ (forall k v, dict_get cpu_details k = Some v -> v = IntelPowerGadget.NaN)
       /\ ((forall c, In c (IntelPowerGadget.columns incomplete_log) ->
                      ~ In c IntelPowerGadget.excluded ->
                      contains "Cumulative" c = false) ->
           tail = []
           /\ forall c, In c (IntelPowerGadget.columns incomplete_log) ->
                        ~ In c IntelPowerGadget.excluded ->
                        dict_get cpu_details c = Some IntelPowerGadget.NaN)
       /\ (forall c, In c (IntelPowerGadget.columns incomplete_log) ->
                     ~ In c IntelPowerGadget.excluded ->
                     contains "Cumulative" c = true ->
                     (exists msg,
                         tail = [LogRecord INFO
                                   (IntelPowerGadget.msg_unreadable gadget
                                      (IndexError msg))])
                     /\ forall c', ~ In c' IntelPowerGadget.excluded ->
                                   contains "Cumulative" c' = true ->
                                   dict_get cpu_details c' = None).
Proof.
  split; [reflexivity|].
  apply (IntelPowerGadgetMore.sample_without_rows gadget 1 incomplete_log []).
  reflexivity.
Defined.

Lemma sysfs_declared_0 :
  IntelRAPL.declared sysfs rapl_dir "intel-rapl:0" "package-0".
Proof. exists ("package-0" ++ nl)%string. split; reflexivity. Qed.

Lemma sysfs_declared_1 :
  IntelRAPL.declared sysfs rapl_dir "intel-rapl:1" "package-1".
Proof. exists ("package-1" ++ nl)%string. split; reflexivity. Qed.

(** X9 on the two packages of the sample root. *)
Lemma package_labels_distinct_witness :
  IntelRAPL._fetch_rapl_files 0%Q sysfs rapl_self = Ok rapl_discovered
  /\ IntelRAPL.name (rapl_file "Processor Power_0(Watt)" "intel-rapl:0")
     <> IntelRAPL.name (rapl_file "Processor Power_1(Watt)" "intel-rapl:1").
Proof.
  split; [reflexivity|].
  apply (IntelRAPLMore.package_labels_distinct Q 0%Q sysfs rapl_self rapl_discovered
           ["intel-rapl:0"; "enabled"; "intel-rapl:1"; "intel-rapl:2"; "uevent"]%string
           0 1 "intel-rapl:0" "intel-rapl:1" "package-0" "package-1");
    try reflexivity.
  - discriminate.
  - exact sysfs_declared_0.
  - exact sysfs_declared_1.
Defined.

(** X10 on the sample root, where every [name] file can be read. *)
Lemma discovery_outcome_witness :
  exists self',
    IntelRAPL._fetch_rapl_files 0%Q sysfs rapl_self = Ok self'
    /\ List.length (IntelRAPL._rapl_files self')
       = (List.length (IntelRAPL._rapl_files rapl_self)
          + List.length (filter (fun x => contains ":" x)
                           ["intel-rapl:0"; "enabled"; "intel-rapl:1";
                            "intel-rapl:2"; "uevent"]%string))%nat.
Proof.
  apply (proj1 (proj2 (IntelRAPLMore.discovery_outcome Q 0%Q sysfs rapl_self))).
  - reflexivity.
  - intros file Hin. simpl in Hin.
    destruct Hin as [<-|[<-|[<-|[]]]]; eexists; reflexivity.
Defined.

(** X11 on the sample root seen through two file systems. *)
Lemma discovery_reads_names_only_witness :
  IntelRAPL.read sysfs "/sys/class/powercap/intel-rapl/enabled/name"
  <> IntelRAPL.read sysfs_full "/sys/class/powercap/intel-rapl/enabled/name"
  /\ IntelRAPL._fetch_rapl_files 0%Q sysfs rapl_self
     = IntelRAPL._fetch_rapl_files 0%Q sysfs_full rapl_self.
Proof.
  split; [discriminate|].
  apply (IntelRAPLMore.discovery_reads_names_only Q 0%Q sysfs sysfs_full rapl_self).
  - reflexivity.
  - intros entries file Hl Hin Hc. injection Hl as <-. simpl in Hin.
    destruct Hin as [<-|[<-|[<-|[<-|[<-|[]]]]]]; try reflexivity; discriminate.
Defined.

(** X21 on the discovered counters. *)
Lemma counter_sample_values_witness :
  NoDup (map IntelRAPL.name (IntelRAPL._rapl_files rapl_discovered))
  /\ exists cpu_details,
       IntelRAPL.get_cpu_details start end_ power_measurement rapl_discovered []
       = (Ok cpu_details, [])
       /\ forall f, In f (IntelRAPL._rapl_files rapl_discovered) ->
            exists r1 r2,
              start (IntelRAPL.path f) (IntelRAPL.measured f) = Ok r1
              /\ end_ (IntelRAPL._delay rapl_discovered) (IntelRAPL.path f) r1 = Ok r2
              /\ dict_get cpu_details (IntelRAPL.name f) = Some (power_measurement r2).
Proof.
  assert (Hnd : NoDup (map IntelRAPL.name (IntelRAPL._rapl_files rapl_discovered))).
  { simpl. repeat constructor; simpl; intuition discriminate. }
  split; [exact Hnd|].
  eapply (IntelRAPLMore.counter_sample_values Q Q start end_ power_measurement
            rapl_discovered []); [reflexivity|reflexivity|exact Hnd].
Defined.

(** X13 on the Mac of the sample. *)
Lemma setup_cli_resolves_witness :
  IntelPowerGadget._setup_cli which "darwin" = Ok "PowerLog"%string
  /\ "PowerLog"%string <> ""%string
  /\ (startswith "darwin" "win" = true \/ startswith "darwin" "darwin" = true)
  /\ (which IntelPowerGadget._windows_exec = Some "PowerLog"%string
      \/ truthy_opt_str (which "PowerLog") = true).
Proof.
  split; [reflexivity|].
  apply (AvailabilityFacts.setup_cli_resolves which "darwin" "PowerLog"). reflexivity.
Defined.

(** X15 on Linux with the sample root. *)
Lemma probes_are_exclusive_witness :
  fst (Availability.is_rapl_available 0%Q sysfs "linux" []) = Ok true
  /\ fst (Availability.is_powergadget_available which path_join2 "linux" [])
     = Ok false.
Proof.
  split; [reflexivity|].
  apply (AvailabilityFacts.probes_are_exclusive Q 0%Q which path_join2 sysfs
           "linux" [] []).
  reflexivity.
Defined.

End MoreRuns.
